(** * ANP <-> MCP bridge: a shallow embedding of [AnpMcpBridge]

    The development follows [simple_anp_mcp_service.py].  JSON payloads are
    values of type [json]; a Python [dict] coming from JSON is an
    insertion-ordered association list; the two stores of the bridge
    ([did_oauth_map], [session_map]) and the static tables are finite maps.
    Python exceptions are explicit: a method of the bridge is a computation
    in a state-and-exception monad, and [try: ... except Exception] is
    [try_except]. *)

From Stdlib Require Import ZArith Ascii String List.
From stdpp Require Import gmap strings list fin_maps pretty.

Local Open Scope string_scope.

(** ** Strings

    A [str] is carried as its UTF-8 bytes.  Case mapping and blanks are
    those of the ASCII range.  A character outside ASCII is a run of bytes
    above 127, taken to be caseless and non-blank, as the Chinese
    characters of the intent table are; the blanks and the cased letters
    that Unicode has outside ASCII are not modelled. *)

Module PyStr.

Definition code (c : ascii) : N := N_of_ascii c.

(** The ASCII characters for which [str.isspace] holds. *)
Definition is_space (c : ascii) : bool :=
  let n := code c in
  ((9 <=? n) && (n <=? 13) || (28 <=? n) && (n <=? 32))%N.

Definition is_upper (c : ascii) : bool :=
  let n := code c in ((65 <=? n) && (n <=? 90))%N.

Definition is_lower (c : ascii) : bool :=
  let n := code c in ((97 <=? n) && (n <=? 122))%N.

Definition to_lower (c : ascii) : ascii :=
  if is_upper c then ascii_of_N (code c + 32) else c.

Definition to_upper (c : ascii) : ascii :=
  if is_lower c then ascii_of_N (code c - 32) else c.

(** [s.lower()] *)
Fixpoint lower (s : string) : string :=
  match s with
  | EmptyString => EmptyString
  | String c r => String (to_lower c) (lower r)
  end.

(** [s.capitalize()], as CPython's loop does it: the character at index 0
    is upper-cased, every later character is lower-cased. *)
Fixpoint capitalize_from (first : bool) (s : string) : string :=
  match s with
  | EmptyString => EmptyString
  | String c r =>
      String (if first then to_upper c else to_lower c) (capitalize_from false r)
  end.

Definition capitalize (s : string) : string := capitalize_from true s.

(** [s.split()] with no argument: the maximal blank-free runs of [s], in
    order.  [cur] is the run being read. *)
Definition flush (cur : string) : list string :=
  match cur with
  | EmptyString => []
  | _ => [cur]
  end.

Fixpoint split_from (cur : string) (s : string) : list string :=
  match s with
  | EmptyString => flush cur
  | String c r =>
      if is_space c then flush cur ++ split_from EmptyString r
      else split_from (cur +:+ String c EmptyString) r
  end.

Definition split (s : string) : list string := split_from EmptyString s.

(** [sep.join(parts)] *)
Fixpoint join (sep : string) (parts : list string) : string :=
  match parts with
  | [] => EmptyString
  | [p] => p
  | p :: ps => p +:+ sep +:+ join sep ps
  end.

(** [s[:n]] *)
Definition prefix (n : nat) (s : string) : string := substring 0 n s.





End PyStr.

(** ** JSON values

    [JFloat] carries a float as its [repr], which determines it. *)

#[warnings="-register-all"]
Inductive json : Type :=
| JNull
| JBool (b : bool)
| JInt (n : Z)
| JFloat (repr : string)
| JStr (s : string)
| JArr (items : list json)
| JObj (fields : list (string * json)).

(** A [dict] with string keys, in insertion order. *)
Abbreviation pydict := (list (string * json)).

Module PyDict.

(** [d.get(k)] as an option; the first binding of [k] is the binding. *)
Fixpoint lookup (k : string) (d : pydict) : option json :=
  match d with
  | [] => None
  | (k', v) :: rest => if String.eqb k k' then Some v else lookup k rest
  end.

(** [k in d] *)
Definition mem (k : string) (d : pydict) : bool :=
  match lookup k d with Some _ => true | None => false end.

(** [d.get(k, default)] *)
Definition get (k : string) (default : json) (d : pydict) : json :=
  match lookup k d with Some v => v | None => default end.

(** [d[k] = v]: an existing key keeps its place, a new key goes last. *)
Fixpoint set (k : string) (v : json) (d : pydict) : pydict :=
  match d with
  | [] => [(k, v)]
  | (k', v') :: rest =>
      if String.eqb k k' then (k', v) :: rest else (k', v') :: set k v rest
  end.

Definition keys (d : pydict) : list string := map fst d.

End PyDict.

(** ** Python values at run time: type names, truth, hashing, [repr] *)

Definition type_name (v : json) : string :=
  match v with
  | JNull => "NoneType"
  | JBool _ => "bool"
  | JInt _ => "int"
  | JFloat _ => "float"
  | JStr _ => "str"
  | JArr _ => "list"
  | JObj _ => "dict"
  end.

(** [bool(v)] *)
Definition truthy (v : json) : bool :=
  match v with
  | JNull => false
  | JBool b => b
  | JInt n => negb (n =? 0)%Z
  | JFloat r => negb (String.eqb r "0.0" || String.eqb r "-0.0")
  | JStr s => negb (String.eqb s "")
  | JArr items => match items with [] => false | _ => true end
  | JObj fields => match fields with [] => false | _ => true end
  end.

Definition hashable (v : json) : bool :=
  match v with
  | JArr _ | JObj _ => false
  | _ => true
  end.

(** [repr(v)]; a string is shown between single quotes, which is its [repr]
    when it holds no quote, backslash or control character. *)
Fixpoint py_repr (v : json) : string :=
  match v with
  | JNull => "None"
  | JBool true => "True"
  | JBool false => "False"
  | JInt n => pretty n
  | JFloat r => r
  | JStr s => "'" +:+ s +:+ "'"
  | JArr items => "[" +:+ PyStr.join ", " (map py_repr items) +:+ "]"
  | JObj fields =>
      "{" +:+ PyStr.join ", "
                (map (fun kv => "'" +:+ fst kv +:+ "': " +:+ py_repr (snd kv)) fields)
          +:+ "}"
  end.

(** ** Exceptions *)

Inductive pyexn : Type :=
| AttributeError (ty attr : string)
| TypeError_unhashable (ty : string)
| KeyError (key : json).

(** [str(e)] *)
Definition str_exn (e : pyexn) : string :=
  match e with
  | AttributeError ty attr =>
      "'" +:+ ty +:+ "' object has no attribute '" +:+ attr +:+ "'"
  | TypeError_unhashable ty => "unhashable type: '" +:+ ty +:+ "'"
  | KeyError key => py_repr key
  end.

(** A computation that returns or raises, without touching the bridge. *)
Abbreviation res A := (pyexn + A)%type.

Definition res_bind {A B : Type} (c : res A) (k : A -> res B) : res B :=
  match c with
  | inl e => inl e
  | inr a => k a
  end.

(** Method calls on a value of unknown type. *)

(** [x.split()] *)
Definition call_split (x : json) : res (list string) :=
  match x with
  | JStr s => inr (PyStr.split s)
  | _ => inl (AttributeError (type_name x) "split")
  end.

(** [x.items()] *)
Definition call_items (x : json) : res pydict :=
  match x with
  | JObj fields => inr fields
  | _ => inl (AttributeError (type_name x) "items")
  end.

(** [x.get(k, default)] *)
Definition call_get (x : json) (k : string) (default : json) : res json :=
  match x with
  | JObj fields => inr (PyDict.get k default fields)
  | _ => inl (AttributeError (type_name x) "get")
  end.

(** Operations of a [dict] whose keys are all strings, at a key of unknown
    type: hashing comes first, and a hashable key that is no string equals
    none of the keys. *)
Section StrKeyed.
Context {A : Type}.

(** [m.get(key)] *)
Definition map_get (m : gmap string A) (key : json) : res (option A) :=
  match key with
  | JStr s => inr (m !! s)
  | JArr _ | JObj _ => inl (TypeError_unhashable (type_name key))
  | _ => inr None
  end.

(** [key in m] *)
Definition map_contains (m : gmap string A) (key : json) : res bool :=
  res_bind (map_get m key) (fun o => inr (bool_decide (is_Some o))).

(** [m[key]] *)
Definition map_subscript (m : gmap string A) (key : json) : res A :=
  res_bind (map_get m key)
           (fun o => match o with Some a => inr a | None => inl (KeyError key) end).
End StrKeyed.

(** ** The bridge *)

(** One entry of [session_map]: the dict built at step 8 of [anp_to_mcp],
    whose three keys are fixed. *)
Record session : Type := Session {
  sess_anp_request : pydict;
  sess_timestamp : string;
  sess_did : json
}.

(** The mutable attributes of [AnpMcpBridge]. *)
Record AnpMcpBridge : Type := Bridge {
  did_oauth_map : gmap string string;
  session_map : gmap string session
}.

(** [AnpMcpBridge()] *)
Definition new_bridge : AnpMcpBridge :=
  {| did_oauth_map := ∅; session_map := ∅ |}.

(** The static tables, written as the dict literals of the source. *)
Definition intent_method_items : list (string * string) :=
  [ ("查询天气", "getWeather");
    ("获取天气预报", "getWeatherForecast");
    ("获取天气预警", "getWeatherAlert");
    ("查询用户信息", "getUserInfo");
    ("更新用户信息", "updateUserInfo");
    ("查询订单", "getOrderInfo");
    ("创建订单", "createOrder");
    ("处理支付", "processPayment") ].

Definition intent_method_map : gmap string string :=
  list_to_map intent_method_items.

(** [{v: k for k, v in self.intent_method_map.items()}]: a later item
    overwrites an earlier one with the same method. *)
Definition method_intent_map : gmap string string :=
  fold_left (fun m kv => <[snd kv := fst kv]> m) intent_method_items ∅.

Definition param_key_items : list (string * string) :=
  [ ("user_id", "userId");
    ("order_id", "orderId");
    ("page_size", "pageSize");
    ("page_num", "pageNum");
    ("city", "cityName");
    ("date", "queryDate") ].

Definition param_key_map : gmap string string :=
  list_to_map param_key_items.

(** *** Pure helpers of the bridge *)

Definition _validate_anp_request (request : pydict) : bool :=
  forallb (fun field => PyDict.mem field request) ["did"; "intent"].

Definition _validate_mcp_response (response : pydict) : bool :=
  let has_result_or_error :=
    PyDict.mem "result" response || PyDict.mem "error" response in
  forallb (fun field => PyDict.mem field response) ["jsonrpc"; "id"]
  && has_result_or_error.

Definition _default_method_conversion (intent : json) : res string :=
  res_bind (call_split intent) (fun words =>
  match words with
  | [] => inr "query"
  | w0 :: rest =>
      inr (PyStr.lower w0 +:+ PyStr.join "" (map PyStr.capitalize rest))
  end).

(** The default handed to [dict.get] is computed before the lookup. *)
Definition _convert_intent_to_method (intent : json) : res string :=
  res_bind (_default_method_conversion intent) (fun default =>
  res_bind (map_get intent_method_map intent) (fun found =>
  inr (match found with Some method => method | None => default end))).

Definition _convert_method_to_intent (method : string) : string :=
  match method_intent_map !! method with
  | Some intent => intent
  | None => method
  end.

(** The loop of [_convert_anp_params_to_mcp] over [params.items()]. *)
Definition convert_items (items : pydict) : pydict :=
  fold_left
    (fun converted kv =>
       let new_key :=
         match param_key_map !! fst kv with
         | Some k => k
         | None => fst kv
         end in
       PyDict.set new_key (snd kv) converted)
    items [].

Definition _convert_anp_params_to_mcp (params : json) : res pydict :=
  res_bind (call_items params) (fun items => inr (convert_items items)).

Definition _convert_mcp_result_to_anp (result : json) : json := result.

(** *** The state-and-exception monad of the methods *)

Definition M (A : Type) : Type := AnpMcpBridge -> res A * AnpMcpBridge.

Definition ret {A : Type} (a : A) : M A := fun self => (inr a, self).

Definition raise {A : Type} (e : pyexn) : M A := fun self => (inl e, self).

Definition bind {A B : Type} (c : M A) (k : A -> M B) : M B :=
  fun self =>
    match c self with
    | (inl e, self') => (inl e, self')
    | (inr a, self') => k a self'
    end.

Definition lift {A : Type} (r : res A) : M A :=
  match r with
  | inl e => raise e
  | inr a => ret a
  end.

Definition gets {A : Type} (f : AnpMcpBridge -> A) : M A :=
  fun self => (inr (f self), self).

Definition modify (f : AnpMcpBridge -> AnpMcpBridge) : M unit :=
  fun self => (inr tt, f self).

(** [try: body except Exception as e: handler e].  What [body] wrote before
    it raised stays written. *)
Definition try_except {A : Type} (body : M A) (handler : pyexn -> M A) : M A :=
  fun self =>
    match body self with
    | (inl e, self') => handler e self'
    | (inr a, self') => (inr a, self')
    end.

Notation "'let*' x := c 'in' k" := (bind c (fun x => k))
  (at level 10, x name, c at level 100, k at level 200).

(** *** Results *)

Definition failure (error error_code : string) : json :=
  JObj [ ("success", JBool false);
         ("error", JStr error);
         ("error_code", JStr error_code) ].

Definition conversion_error (e : pyexn) : json :=
  failure ("转换失败: " +:+ str_exn e) "CONVERSION_ERROR".

(** *** Methods *)

(** [self.session_map[request_id] = info] *)
Definition with_session (request_id : string) (info : session)
    (self : AnpMcpBridge) : AnpMcpBridge :=
  {| did_oauth_map := did_oauth_map self;
     session_map := <[request_id := info]> (session_map self) |}.

Definition register_did (did oauth_token : string) : M bool :=
  let* _ := modify (fun self =>
    {| did_oauth_map := <[did := oauth_token]> (did_oauth_map self);
       session_map := session_map self |}) in
  ret true.

(** [uuid_hex] is [uuid.uuid4().hex] and [now] is
    [datetime.now().isoformat()], both given by the environment. *)
Definition anp_to_mcp_body (anp_request : pydict) (uuid_hex now : string) : M json :=
  if negb (_validate_anp_request anp_request) then
    ret (failure "无效的ANP请求格式" "INVALID_ANP_FORMAT")
  else
    let did := PyDict.get "did" JNull anp_request in
    let* registry := gets did_oauth_map in
    let* rejected :=
      if negb (truthy did) then ret true
      else let* known := lift (map_contains registry did) in ret (negb known) in
    if rejected then
      ret (failure "无效的DID" "INVALID_DID")
    else
      let* oauth_token := lift (map_subscript registry did) in
      let intent := PyDict.get "intent" JNull anp_request in
      let* method := lift (_convert_intent_to_method intent) in
      let* params :=
        lift (_convert_anp_params_to_mcp
                (PyDict.get "parameters" (JObj []) anp_request)) in
      let request_id := "req-" +:+ PyStr.prefix 8 uuid_hex in
      let mcp_request :=
        JObj [ ("jsonrpc", JStr "2.0");
               ("method", JStr method);
               ("params", JObj params);
               ("id", JStr request_id);
               ("oauth_token", JStr oauth_token) ] in
      let* _ := modify (with_session request_id
                          {| sess_anp_request := anp_request;
                             sess_timestamp := now;
                             sess_did := did |}) in
      ret (JObj [ ("success", JBool true);
                  ("mcp_request", mcp_request);
                  ("request_id", JStr request_id) ]).

Definition anp_to_mcp (anp_request : pydict) (uuid_hex now : string) : M json :=
  try_except (anp_to_mcp_body anp_request uuid_hex now)
             (fun e => ret (conversion_error e)).

(** A stored session is a dict of three keys, hence true: [not session_info]
    holds exactly when [get] gave [None]. *)
Definition mcp_to_anp_body (mcp_response : pydict) : M json :=
  if negb (_validate_mcp_response mcp_response) then
    ret (failure "无效的MCP响应格式" "INVALID_MCP_FORMAT")
  else
    let request_id := PyDict.get "id" JNull mcp_response in
    let* sessions := gets session_map in
    let* session_info := lift (map_get sessions request_id) in
    match session_info with
    | None => ret (failure "未找到对应的会话信息" "SESSION_NOT_FOUND")
    | Some info =>
        if PyDict.mem "error" mcp_response then
          let* error :=
            lift (match PyDict.lookup "error" mcp_response with
                  | Some v => inr v
                  | None => inl (KeyError (JStr "error"))
                  end) in
          let* message := lift (call_get error "message" (JStr "未知错误")) in
          let* code := lift (call_get error "code" (JStr "UNKNOWN_ERROR")) in
          ret (JObj [ ("success", JBool false);
                      ("error", message);
                      ("error_code", code);
                      ("context",
                       JObj [ ("request_id", request_id);
                              ("original_intent",
                               PyDict.get "intent" JNull (sess_anp_request info)) ]) ])
        else
          let result := PyDict.get "result" (JObj []) mcp_response in
          let original_intent := PyDict.get "intent" JNull (sess_anp_request info) in
          ret (JObj [ ("success", JBool true);
                      ("data", _convert_mcp_result_to_anp result);
                      ("context",
                       JObj [ ("intent", original_intent);
                              ("request_id", request_id);
                              ("did", sess_did info) ]) ])
    end.

Definition mcp_to_anp (mcp_response : pydict) : M json :=
  try_except (mcp_to_anp_body mcp_response)
             (fun e => ret (conversion_error e)).

Definition get_session_info (request_id : string) : M (option session) :=
  gets (fun self => session_map self !! request_id).

Definition clear_session (request_id : string) : M bool :=
  let* sessions := gets session_map in
  if bool_decide (is_Some (sessions !! request_id)) then
    let* _ := modify (fun self =>
      {| did_oauth_map := did_oauth_map self;
         session_map := delete request_id (session_map self) |}) in
    ret true
  else ret false.

(** ** Reading a result *)

(** [r.get(k)] on a result dict. *)
Definition field (k : string) (r : json) : option json :=
  match r with
  | JObj fields => PyDict.lookup k fields
  | _ => None
  end.

(** The result of a successful [anp_to_mcp]. *)
Definition translated (method : string) (params : pydict)
    (request_id oauth_token : string) : json :=
  JObj [ ("success", JBool true);
         ("mcp_request",
          JObj [ ("jsonrpc", JStr "2.0");
                 ("method", JStr method);
                 ("params", JObj params);
                 ("id", JStr request_id);
                 ("oauth_token", JStr oauth_token) ]);
         ("request_id", JStr request_id) ].

(** ** The fallback rule, in words *)

(** A later word: first character upper-cased, the others lower-cased. *)
Definition camel_token (t : string) : string :=
  match t with
  | EmptyString => EmptyString
  | String c r => String (PyStr.to_upper c) (PyStr.lower r)
  end.

Definition fallback_rule (intent : string) : string :=
  match PyStr.split intent with
  | [] => "query"
  | t :: ts => PyStr.lower t +:+ fold_right String.append "" (map camel_token ts)
  end.



(** ** The paths through the two translations *)

Inductive anp_outcome (anp_request : pydict) (uuid_hex now : string)
    (self : AnpMcpBridge) : json -> AnpMcpBridge -> Prop :=
| anp_invalid_format :
    _validate_anp_request anp_request = false ->
    anp_outcome anp_request uuid_hex now self
      (failure "无效的ANP请求格式" "INVALID_ANP_FORMAT") self
| anp_invalid_did :
    _validate_anp_request anp_request = true ->
    truthy (PyDict.get "did" JNull anp_request) = false
    \/ map_contains (did_oauth_map self) (PyDict.get "did" JNull anp_request)
       = inr false ->
    anp_outcome anp_request uuid_hex now self
      (failure "无效的DID" "INVALID_DID") self
| anp_conversion_error e :
    _validate_anp_request anp_request = true ->
    anp_to_mcp_body anp_request uuid_hex now self = (inl e, self) ->
    anp_outcome anp_request uuid_hex now self (conversion_error e) self
| anp_translated d oauth_token method params :
    _validate_anp_request anp_request = true ->
    PyDict.lookup "did" anp_request = Some (JStr d) ->
    d <> "" ->
    did_oauth_map self !! d = Some oauth_token ->
    _convert_intent_to_method (PyDict.get "intent" JNull anp_request)
    = inr method ->
    _convert_anp_params_to_mcp (PyDict.get "parameters" (JObj []) anp_request)
    = inr params ->
    anp_outcome anp_request uuid_hex now self
      (translated method params ("req-" +:+ PyStr.prefix 8 uuid_hex) oauth_token)
      (with_session ("req-" +:+ PyStr.prefix 8 uuid_hex)
         {| sess_anp_request := anp_request;
            sess_timestamp := now;
            sess_did := JStr d |} self).

Inductive mcp_outcome (mcp_response : pydict) (self : AnpMcpBridge) : json -> Prop :=
| mcp_invalid_format :
    _validate_mcp_response mcp_response = false ->
    mcp_outcome mcp_response self
      (failure "无效的MCP响应格式" "INVALID_MCP_FORMAT")
| mcp_session_not_found :
    _validate_mcp_response mcp_response = true ->
    map_get (session_map self) (PyDict.get "id" JNull mcp_response) = inr None ->
    mcp_outcome mcp_response self
      (failure "未找到对应的会话信息" "SESSION_NOT_FOUND")
| mcp_conversion_error e :
    _validate_mcp_response mcp_response = true ->
    mcp_to_anp_body mcp_response self = (inl e, self) ->
    mcp_outcome mcp_response self (conversion_error e)
| mcp_upstream_error request_id info error :
    _validate_mcp_response mcp_response = true ->
    PyDict.lookup "id" mcp_response = Some (JStr request_id) ->
    session_map self !! request_id = Some info ->
    PyDict.lookup "error" mcp_response = Some (JObj error) ->
    mcp_outcome mcp_response self
      (JObj [ ("success", JBool false);
              ("error", PyDict.get "message" (JStr "未知错误") error);
              ("error_code", PyDict.get "code" (JStr "UNKNOWN_ERROR") error);
              ("context",
               JObj [ ("request_id", JStr request_id);
                      ("original_intent",
                       PyDict.get "intent" JNull (sess_anp_request info)) ]) ])
| mcp_answered request_id info :
    _validate_mcp_response mcp_response = true ->
    PyDict.lookup "id" mcp_response = Some (JStr request_id) ->
    session_map self !! request_id = Some info ->
    PyDict.lookup "error" mcp_response = None ->
    mcp_outcome mcp_response self
      (JObj [ ("success", JBool true);
              ("data", PyDict.get "result" (JObj []) mcp_response);
              ("context",
               JObj [ ("intent",
                       PyDict.get "intent" JNull (sess_anp_request info));
                      ("request_id", JStr request_id);
                      ("did", sess_did info) ]) ]).

(** A result is discriminated: [success] is a boolean, and a failure names
    its code while a success names none. *)
Definition is_result (r : json) : Prop :=
  (field "success" r = Some (JBool true) /\ field "error_code" r = None)
  \/ (field "success" r = Some (JBool false)
      /\ exists code, field "error_code" r = Some code).

(** ** A running example *)

Definition alice_bridge : AnpMcpBridge :=
  snd (register_did "did:anp:alice" "token-alice" new_bridge).

Definition weather_request : pydict :=
  [ ("did", JStr "did:anp:alice");
    ("intent", JStr "查询天气");
    ("parameters", JObj [ ("city", JStr "北京"); ("date", JStr "today") ]) ].

Definition weather_uuid : string := "3f2a9c1e5b7d4e8fa1b2c3d4e5f60718".

Definition weather_now : string := "2025-03-01T08:30:00.000000".

Definition weather_session : session :=
  {| sess_anp_request := weather_request;
     sess_timestamp := weather_now;
     sess_did := JStr "did:anp:alice" |}.

(** The bridge once [weather_request] went through [anp_to_mcp]. *)
Definition alice_waiting : AnpMcpBridge :=
  with_session "req-3f2a9c1e" weather_session alice_bridge.

(** Closes a conjunction of equivalences between decided facts. *)
Ltac decide_table :=
  repeat split; intros;
  repeat match goal with
         | H : _ /\ _ |- _ => destruct H
         | H : _ \/ _ |- _ => destruct H
         | H : exists _, _ |- _ => destruct H
         end;
  unfold not in *;
  solve [ discriminate | congruence | exfalso; eauto | eauto 6 ].

Ltac run_monad := unfold try_except, bind, gets, ret, lift, raise, modify; simpl.

(** ** Renaming, in words *)

(** [param_key_map.get(key, key)] *)
Definition rename_key (key : string) : string :=
  match param_key_map !! key with
  | Some k => k
  | None => key
  end.

Definition rename_item (kv : string * json) : string * json :=
  (rename_key (fst kv), snd kv).

(** ** The HTTP service

    [AnpMcpService] wraps the bridge in routes.  A route ends with a value,
    sent as JSON under status 200, or with an [HTTPException] that leaves
    it.  What [await request.json()] gave is an input of the route. *)

Inductive request_body : Type :=
| BodyJson (value : json)
| BodyNotJson
| BodyUnreadable (text : string).

(** What can be raised inside a route: [BodyNotJson] raises
    [JSONDecodeError], [BodyUnreadable] any other exception, kept as its
    text. *)
Inductive route_exn : Type :=
| HTTPException (status_code : nat) (detail : json)
| JSONDecodeError
| OtherException (text : string).

Inductive http_response : Type :=
| Http200 (body : json)
| HttpFailure (status_code : nat) (detail : json).

(** [v == s], for a string [s] *)
Definition eq_str (v : json) (s : string) : bool :=
  match v with
  | JStr s' => String.eqb s' s
  | _ => false
  end.

(** [needle in container], for a string [needle]: a key of a mapping, an
    element of a list, a substring of a string; [None] stands for the
    [TypeError] raised on a value that is no container. *)
Definition contains_str (needle : string) (container : json) : option bool :=
  match container with
  | JObj fields => Some (PyDict.mem needle fields)
  | JArr items =>
      Some (existsb (fun x => eq_str x needle) items)
  | JStr s => Some (match index 0 needle s with Some _ => true | None => false end)
  | _ => None
  end.

Definition not_iterable (v : json) : json :=
  failure ("转换失败: argument of type '" +:+ type_name v +:+ "' is not iterable")
    "CONVERSION_ERROR".

(** [anp_to_mcp] on whatever JSON value the body held.  A value that is no
    mapping fails in the validation, or passes it and has no [get]. *)
Definition anp_to_mcp_value (anp_request : json) (uuid_hex now : string) : M json :=
  match anp_request with
  | JObj fields => anp_to_mcp fields uuid_hex now
  | _ =>
      match contains_str "did" anp_request with
      | None => ret (not_iterable anp_request)
      | Some false => ret (failure "无效的ANP请求格式" "INVALID_ANP_FORMAT")
      | Some true =>
          match contains_str "intent" anp_request with
          | Some true =>
              ret (conversion_error (AttributeError (type_name anp_request) "get"))
          | _ => ret (failure "无效的ANP请求格式" "INVALID_ANP_FORMAT")
          end
      end
  end.

(** [mcp_to_anp] on whatever JSON value the body held;
    [has_result_or_error] is computed first. *)
Definition mcp_to_anp_value (mcp_response : json) : M json :=
  match mcp_response with
  | JObj fields => mcp_to_anp fields
  | _ =>
      match contains_str "result" mcp_response,
            contains_str "error" mcp_response,
            contains_str "jsonrpc" mcp_response,
            contains_str "id" mcp_response with
      | Some has_result, Some has_error, Some has_jsonrpc, Some has_id =>
          if has_jsonrpc && has_id && (has_result || has_error) then
            ret (conversion_error (AttributeError (type_name mcp_response) "get"))
          else ret (failure "无效的MCP响应格式" "INVALID_MCP_FORMAT")
      | _, _, _, _ => ret (not_iterable mcp_response)
      end
  end.


Module AnpMcpService.

Local Abbreviation bridge_register_did := register_did.
Local Abbreviation bridge_clear_session := clear_session.


Section Routes.

(** [str(e)] for an [HTTPException], as the web framework defines it. *)
Variable http_exception_str : nat -> json -> string.

(** The two [except] clauses shared by the converting routes: a
    [JSONDecodeError] becomes a 400, every other exception, an
    [HTTPException] raised in the [try] block included, becomes a 500
    whose detail is its text. *)
Definition answer (attempt : (route_exn + json) * AnpMcpBridge)
    : http_response * AnpMcpBridge :=
  match attempt with
  | (inr result, self) => (Http200 result, self)
  | (inl JSONDecodeError, self) =>
      (HttpFailure 400 (JStr "无效的JSON格式"), self)
  | (inl (HTTPException status_code detail), self) =>
      (HttpFailure 500 (JStr (http_exception_str status_code detail)), self)
  | (inl (OtherException text), self) => (HttpFailure 500 (JStr text), self)
  end.

(** [POST /anp-to-mcp] *)
Definition convert_anp_to_mcp (body : request_body) (uuid_hex now : string)
    (self : AnpMcpBridge) : http_response * AnpMcpBridge :=
  answer
    match body with
    | BodyNotJson => (inl JSONDecodeError, self)
    | BodyUnreadable text => (inl (OtherException text), self)
    | BodyJson anp_request =>
        match anp_to_mcp_value anp_request uuid_hex now self with
        | (inl e, self') => (inl (OtherException (str_exn e)), self')
        | (inr (JObj fields), self') =>
            if negb (truthy (PyDict.get "success" (JBool false) fields)) then
              (inl (HTTPException 400
                      (PyDict.get "error" (JStr "转换失败") fields)), self')
            else (inr (JObj fields), self')
        | (inr result, self') =>
            (inl (OtherException
                    (str_exn (AttributeError (type_name result) "get"))), self')
        end
    end.

(** [POST /mcp-to-anp] *)
Definition convert_mcp_to_anp (body : request_body) (self : AnpMcpBridge)
    : http_response * AnpMcpBridge :=
  answer
    match body with
    | BodyNotJson => (inl JSONDecodeError, self)
    | BodyUnreadable text => (inl (OtherException text), self)
    | BodyJson mcp_response =>
        match mcp_to_anp_value mcp_response self with
        | (inl e, self') => (inl (OtherException (str_exn e)), self')
        | (inr (JObj fields), self') =>
            if negb (truthy (PyDict.get "success" (JBool false) fields))
               && PyDict.mem "error_code" fields then
              match PyDict.lookup "error_code" fields with
              | Some code =>
                  if eq_str code "SESSION_NOT_FOUND" then
                    (inl (HTTPException 404
                            (PyDict.get "error" (JStr "会话未找到") fields)),
                     self')
                  else
                    (inl (HTTPException 400
                            (PyDict.get "error" (JStr "转换失败") fields)),
                     self')
              | None =>
                  (inl (OtherException (str_exn (KeyError (JStr "error_code")))),
                   self')
              end
            else (inr (JObj fields), self')
        | (inr result, self') =>
            (inl (OtherException
                    (str_exn (AttributeError (type_name result) "get"))), self')
        end
    end.

End Routes.

(** An exception that is no [HTTPException] and leaves a route. *)
Definition internal_server_error : http_response :=
  HttpFailure 500 (JStr "Internal Server Error").

(** [POST /register] *)
Definition register_did (did oauth_token : string) (self : AnpMcpBridge)
    : http_response * AnpMcpBridge :=
  match bridge_register_did did oauth_token self with
  | (inr true, self') =>
      (Http200 (JObj [ ("success", JBool true);
                       ("message", JStr ("成功注册DID: " +:+ did)) ]), self')
  | (inr false, self') => (HttpFailure 400 (JStr "注册失败"), self')
  | (inl _, self') => (internal_server_error, self')
  end.


(** [DELETE /sessions/{request_id}] *)
Definition clear_session (request_id : string) (self : AnpMcpBridge)
    : http_response * AnpMcpBridge :=
  match bridge_clear_session request_id self with
  | (inr true, self') =>
      (Http200 (JObj [ ("success", JBool true);
                       ("message", JStr ("成功清除会话: " +:+ request_id)) ]),
       self')
  | (inr false, self') => (HttpFailure 404 (JStr "会话未找到"), self')
  | (inl _, self') => (internal_server_error, self')
  end.

End AnpMcpService.

(** [str(e)] of an [HTTPException] in the releases of the framework that
    define it: the status code, a colon, the detail. *)
Definition status_colon_detail (status_code : nat) (detail : json) : string :=
  pretty status_code +:+ ": "
  +:+ match detail with JStr s => s | _ => py_repr detail end.

(** * Properties *)

(** ** Strings *)

Module PyStrFacts.
Import PyStr.

Lemma app_cons c (s t : string) : String c s +:+ t = String c (s +:+ t).
Proof. reflexivity. Qed.

Lemma app_empty_r (s : string) : s +:+ "" = s.
Proof. induction s as [|c s IH]; [reflexivity|]. by rewrite app_cons, IH. Qed.

Lemma app_assoc (s t u : string) : (s +:+ t) +:+ u = s +:+ (t +:+ u).
Proof. induction s as [|c s IH]; [reflexivity|]. by rewrite !app_cons, IH. Qed.

(** After the first character [capitalize] is [lower]. *)
Lemma capitalize_from_false (s : string) : capitalize_from false s = lower s.
Proof. induction s as [|c s IH]; simpl; [reflexivity|]. by rewrite IH. Qed.

Lemma capitalize_cons c (s : string) :
  capitalize (String c s) = String (to_upper c) (lower s).
Proof. unfold capitalize. simpl. by rewrite capitalize_from_false. Qed.

(** [capitalize] undoes upper case past the first character. *)
Lemma capitalize_lowers_rest c d (s : string) :
  is_upper d = true ->
  capitalize (String c (String d s)) <> String (to_upper c) (String d s).
Proof.
  intros Hd. rewrite capitalize_cons. simpl. intros [= Heq _].
  unfold to_lower in Heq. rewrite Hd in Heq.
  unfold is_upper, code in Hd.
  apply andb_prop in Hd as [H1 H2].
  apply N.leb_le in H1. apply N.leb_le in H2.
  assert (Hn : N_of_ascii (ascii_of_N (N_of_ascii d + 32)) = (N_of_ascii d + 32)%N).
  { apply N_ascii_embedding. lia. }
  unfold code in Heq. rewrite Heq in Hn. lia.
Qed.

Lemma join_empty_cons (p : string) (ps : list string) :
  join "" (p :: ps) = p +:+ join "" ps.
Proof. destruct ps; simpl; [by rewrite app_empty_r | reflexivity]. Qed.


(** Joining on the empty separator is plain concatenation. *)
Lemma join_empty_concat (l : list string) :
  join "" l = fold_right String.append "" l.
Proof.
  induction l as [|p l IH]; [reflexivity|].
  rewrite join_empty_cons, IH. reflexivity.
Qed.


Lemma snoc_nonempty (s : string) c : s +:+ String c "" <> "".
Proof. by destruct s. Qed.












End PyStrFacts.

(** ** Dicts *)

Module PyDictFacts.
Import PyDict.

Lemma mem_true_lookup k (d : pydict) :
  mem k d = true <-> exists v, lookup k d = Some v.
Proof.
  unfold mem. destruct (lookup k d) as [v|]; split.
  - intros _. by exists v.
  - reflexivity.
  - discriminate.
  - intros [v [=]].
Qed.

Lemma mem_false_lookup k (d : pydict) : mem k d = false <-> lookup k d = None.
Proof. unfold mem. destruct (lookup k d); split; congruence. Qed.

Lemma get_lookup k default (d : pydict) v :
  lookup k d = Some v -> get k default d = v.
Proof. unfold get. by intros ->. Qed.

Lemma get_absent k default (d : pydict) :
  lookup k d = None -> get k default d = default.
Proof. unfold get. by intros ->. Qed.

Lemma lookup_set_eq k v (d : pydict) : lookup k (set k v d) = Some v.
Proof.
  induction d as [|[k' v'] d IH]; simpl.
  - by rewrite String.eqb_refl.
  - destruct (String.eqb k k') eqn:E; simpl; rewrite E; [reflexivity | exact IH].
Qed.

Lemma lookup_set_ne k k' v (d : pydict) :
  k <> k' -> lookup k' (set k v d) = lookup k' d.
Proof.
  intros Hne. induction d as [|[k0 v0] d IH]; simpl.
  - apply String.eqb_neq in Hne. rewrite String.eqb_sym in Hne. by rewrite Hne.
  - destruct (String.eqb k k0) eqn:E; simpl.
    + apply String.eqb_eq in E as <-.
      assert (String.eqb k' k = false) as ->; [|reflexivity].
      apply String.eqb_neq. congruence.
    + by rewrite IH.
Qed.

(** Assignment keeps the keys distinct. *)
Lemma keys_set_NoDup k v (d : pydict) : NoDup (keys d) -> NoDup (keys (set k v d)).
Proof.
  unfold keys. induction d as [|[k' v'] d IH]; simpl; intros Hnd.
  - repeat constructor. by intros ?%elem_of_nil.
  - destruct (String.eqb k k') eqn:E; simpl; [exact Hnd|].
    apply NoDup_cons in Hnd as [Hin Hnd]. apply NoDup_cons. split; [|by apply IH].
    intros Hin'. apply Hin. clear IH Hnd Hin.
    apply String.eqb_neq in E.
    induction d as [|[k0 v0] d IH]; simpl in *.
    + apply list_elem_of_singleton in Hin'. congruence.
    + destruct (String.eqb k k0) eqn:E0; simpl in *; [exact Hin'|].
      apply elem_of_cons in Hin' as [->|Hin']; [by left|]. right. by apply IH.
Qed.

End PyDictFacts.

(** ** Validation *)

Lemma validate_anp_request_true (request : pydict) :
  _validate_anp_request request = true
  <-> PyDict.mem "did" request = true /\ PyDict.mem "intent" request = true.
Proof.
  unfold _validate_anp_request. simpl. rewrite andb_true_r.
  apply andb_true_iff.
Qed.

Lemma validate_anp_request_false (request : pydict) :
  _validate_anp_request request = false
  <-> PyDict.mem "did" request = false \/ PyDict.mem "intent" request = false.
Proof.
  unfold _validate_anp_request. simpl. rewrite andb_true_r.
  apply andb_false_iff.
Qed.

Lemma validate_mcp_response_true (response : pydict) :
  _validate_mcp_response response = true
  <-> PyDict.mem "jsonrpc" response = true /\ PyDict.mem "id" response = true
      /\ (PyDict.mem "result" response = true \/ PyDict.mem "error" response = true).
Proof.
  unfold _validate_mcp_response. simpl. rewrite andb_true_r.
  rewrite !andb_true_iff, orb_true_iff. tauto.
Qed.

Lemma validate_mcp_response_false (response : pydict) :
  _validate_mcp_response response = false
  <-> PyDict.mem "jsonrpc" response = false \/ PyDict.mem "id" response = false
      \/ (PyDict.mem "result" response = false /\ PyDict.mem "error" response = false).
Proof.
  unfold _validate_mcp_response. simpl. rewrite andb_true_r.
  rewrite !andb_false_iff, orb_false_iff. tauto.
Qed.

(** ** The monad *)

Lemma map_contains_str {A : Type} (m : gmap string A) (d : string) :
  map_contains m (JStr d) = inr (bool_decide (is_Some (m !! d))).
Proof. reflexivity. Qed.

Lemma field_failure_success (error error_code : string) :
  field "success" (failure error error_code) = Some (JBool false).
Proof. reflexivity. Qed.

Lemma field_failure_code (error error_code : string) :
  field "error_code" (failure error error_code) = Some (JStr error_code).
Proof. reflexivity. Qed.

(** ** [anp_to_mcp], path by path *)

Section AnpToMcp.
Variables (anp_request : pydict) (uuid_hex now : string) (self : AnpMcpBridge).

(** The body either raises with the bridge untouched, or returns along
    one of the paths of [anp_outcome]. *)
Lemma anp_to_mcp_body_outcome :
  (exists e, _validate_anp_request anp_request = true
             /\ anp_to_mcp_body anp_request uuid_hex now self = (inl e, self))
  \/ (exists r self',
         anp_to_mcp_body anp_request uuid_hex now self = (inr r, self')
         /\ anp_outcome anp_request uuid_hex now self r self').
Proof.
  unfold anp_to_mcp_body.
  destruct (_validate_anp_request anp_request) eqn:Hv; simpl.
  2:{ right. do 2 eexists. split; [reflexivity|]. by constructor. }
  pose proof Hv as
    [[did Hdid]%PyDictFacts.mem_true_lookup _]%validate_anp_request_true.
  pose proof (PyDictFacts.get_lookup _ JNull _ _ Hdid) as Hget.
  rewrite Hget. run_monad.
  destruct (truthy did) eqn:Ht; simpl.
  2:{ right. do 2 eexists. split; [reflexivity|].
      apply anp_invalid_did; [done|]. left. by rewrite Hget. }
  destruct did as [| b | n | r | d | items | fields]; simpl in Ht |- *;
    try discriminate;
    try (right; do 2 eexists; split; [reflexivity|];
         apply anp_invalid_did; [done|]; right; by rewrite Hget);
    try (left; eexists; split; reflexivity).
  unfold map_subscript, map_get, res_bind.
  destruct (did_oauth_map self !! d) as [oauth_token|] eqn:Hreg; simpl.
  2:{ right. do 2 eexists. split; [reflexivity|].
      apply anp_invalid_did; [done|]. right.
      rewrite Hget, map_contains_str. by rewrite Hreg. }
  destruct (_convert_intent_to_method _) as [e|method] eqn:Hm; simpl.
  { left. eexists. split; reflexivity. }
  destruct (_convert_anp_params_to_mcp _) as [e|params] eqn:Hp; simpl.
  { left. eexists. split; reflexivity. }
  right. do 2 eexists. split; [reflexivity|].
  eapply anp_translated; eauto.
  intros ->. discriminate.
Qed.

Lemma anp_to_mcp_outcome :
  exists r self',
    anp_to_mcp anp_request uuid_hex now self = (inr r, self')
    /\ anp_outcome anp_request uuid_hex now self r self'.
Proof.
  unfold anp_to_mcp, try_except.
  destruct anp_to_mcp_body_outcome as [(e & Hv & He)|(r & self' & Hr & Hout)].
  - rewrite He. do 2 eexists. split; [reflexivity|].
    by apply anp_conversion_error.
  - rewrite Hr. by do 2 eexists.
Qed.

Lemma anp_to_mcp_invalid_format :
  _validate_anp_request anp_request = false ->
  anp_to_mcp anp_request uuid_hex now self
  = (inr (failure "无效的ANP请求格式" "INVALID_ANP_FORMAT"), self).
Proof.
  intros Hv. unfold anp_to_mcp, try_except, anp_to_mcp_body.
  by rewrite Hv.
Qed.


Lemma anp_to_mcp_translated (d oauth_token method : string) (params : pydict) :
  PyDict.lookup "did" anp_request = Some (JStr d) ->
  d <> "" ->
  did_oauth_map self !! d = Some oauth_token ->
  PyDict.mem "intent" anp_request = true ->
  _convert_intent_to_method (PyDict.get "intent" JNull anp_request)
  = inr method ->
  _convert_anp_params_to_mcp (PyDict.get "parameters" (JObj []) anp_request)
  = inr params ->
  anp_to_mcp anp_request uuid_hex now self
  = (inr (translated method params ("req-" +:+ PyStr.prefix 8 uuid_hex)
            oauth_token),
     with_session ("req-" +:+ PyStr.prefix 8 uuid_hex)
       {| sess_anp_request := anp_request;
          sess_timestamp := now;
          sess_did := JStr d |} self).
Proof.
  intros Hdid Hne Hreg Hintent Hm Hp.
  assert (_validate_anp_request anp_request = true) as Hv.
  { apply validate_anp_request_true. split; [|done].
    apply PyDictFacts.mem_true_lookup. eauto. }
  unfold anp_to_mcp, anp_to_mcp_body. rewrite Hv.
  rewrite (PyDictFacts.get_lookup _ JNull _ _ Hdid). run_monad.
  apply String.eqb_neq in Hne. rewrite Hne. simpl.
  unfold map_subscript, map_get, res_bind. rewrite Hreg. simpl.
  rewrite Hm, Hp. reflexivity.
Qed.

End AnpToMcp.

(** ** [mcp_to_anp], path by path *)

Section McpToAnp.
Variables (mcp_response : pydict) (self : AnpMcpBridge).

Lemma mcp_to_anp_body_outcome :
  (exists e, _validate_mcp_response mcp_response = true
             /\ mcp_to_anp_body mcp_response self = (inl e, self))
  \/ (exists r, mcp_to_anp_body mcp_response self = (inr r, self)
                /\ mcp_outcome mcp_response self r).
Proof.
  unfold mcp_to_anp_body.
  destruct (_validate_mcp_response mcp_response) eqn:Hv; simpl.
  2:{ right. eexists. split; [reflexivity|]. by constructor. }
  pose proof Hv as
    (_ & [id Hid]%PyDictFacts.mem_true_lookup & _)%validate_mcp_response_true.
  pose proof (PyDictFacts.get_lookup _ JNull _ _ Hid) as Hget.
  rewrite Hget. run_monad.
  destruct id as [| b | n | r | request_id | items | fields]; simpl;
    try (right; eexists; split; [reflexivity|];
         apply mcp_session_not_found; [done|]; by rewrite Hget);
    try (left; eexists; split; reflexivity).
  destruct (session_map self !! request_id) as [info|] eqn:Hs; simpl.
  2:{ right. eexists. split; [reflexivity|].
      apply mcp_session_not_found; [done|]. rewrite Hget. simpl. by rewrite Hs. }
  unfold PyDict.mem.
  destruct (PyDict.lookup "error" mcp_response) as [error|] eqn:He; simpl.
  2:{ right. eexists. split; [reflexivity|]. by eapply mcp_answered. }
  destruct error; simpl;
    try (left; eexists; split; reflexivity).
  right. eexists. split; [reflexivity|]. by eapply mcp_upstream_error.
Qed.

Lemma mcp_to_anp_outcome :
  exists r, mcp_to_anp mcp_response self = (inr r, self)
            /\ mcp_outcome mcp_response self r.
Proof.
  unfold mcp_to_anp, try_except.
  destruct mcp_to_anp_body_outcome as [(e & Hv & He)|(r & Hr & Hout)].
  - rewrite He. eexists. split; [reflexivity|].
    by apply mcp_conversion_error.
  - rewrite Hr. by eexists.
Qed.

Lemma mcp_to_anp_invalid_format :
  _validate_mcp_response mcp_response = false ->
  mcp_to_anp mcp_response self
  = (inr (failure "无效的MCP响应格式" "INVALID_MCP_FORMAT"), self).
Proof.
  intros Hv. unfold mcp_to_anp, try_except, mcp_to_anp_body.
  by rewrite Hv.
Qed.

Lemma mcp_to_anp_session_not_found (request_id : string) :
  _validate_mcp_response mcp_response = true ->
  PyDict.lookup "id" mcp_response = Some (JStr request_id) ->
  session_map self !! request_id = None ->
  mcp_to_anp mcp_response self
  = (inr (failure "未找到对应的会话信息" "SESSION_NOT_FOUND"), self).
Proof.
  intros Hv Hid Hs. unfold mcp_to_anp, mcp_to_anp_body. rewrite Hv.
  rewrite (PyDictFacts.get_lookup _ JNull _ _ Hid). run_monad.
  by rewrite Hs.
Qed.

Lemma mcp_to_anp_upstream_error (request_id : string) (info : session)
    (error : pydict) :
  _validate_mcp_response mcp_response = true ->
  PyDict.lookup "id" mcp_response = Some (JStr request_id) ->
  session_map self !! request_id = Some info ->
  PyDict.lookup "error" mcp_response = Some (JObj error) ->
  mcp_to_anp mcp_response self
  = (inr (JObj [ ("success", JBool false);
                 ("error", PyDict.get "message" (JStr "未知错误") error);
                 ("error_code", PyDict.get "code" (JStr "UNKNOWN_ERROR") error);
                 ("context",
                  JObj [ ("request_id", JStr request_id);
                         ("original_intent",
                          PyDict.get "intent" JNull (sess_anp_request info)) ]) ]),
     self).
Proof.
  intros Hv Hid Hs He. unfold mcp_to_anp, mcp_to_anp_body. rewrite Hv.
  rewrite (PyDictFacts.get_lookup _ JNull _ _ Hid). run_monad.
  rewrite Hs. unfold PyDict.mem. rewrite He. reflexivity.
Qed.

Lemma mcp_to_anp_answered (request_id : string) (info : session) :
  _validate_mcp_response mcp_response = true ->
  PyDict.lookup "id" mcp_response = Some (JStr request_id) ->
  session_map self !! request_id = Some info ->
  PyDict.lookup "error" mcp_response = None ->
  mcp_to_anp mcp_response self
  = (inr (JObj [ ("success", JBool true);
                 ("data", PyDict.get "result" (JObj []) mcp_response);
                 ("context",
                  JObj [ ("intent",
                          PyDict.get "intent" JNull (sess_anp_request info));
                         ("request_id", JStr request_id);
                         ("did", sess_did info) ]) ]),
     self).
Proof.
  intros Hv Hid Hs He. unfold mcp_to_anp, mcp_to_anp_body. rewrite Hv.
  rewrite (PyDictFacts.get_lookup _ JNull _ _ Hid). run_monad.
  rewrite Hs. unfold PyDict.mem. rewrite He. reflexivity.
Qed.

End McpToAnp.

(** ** The intent table and its fallback *)

Lemma capitalize_camel_token (t : string) : PyStr.capitalize t = camel_token t.
Proof. destruct t; [reflexivity|]. apply PyStrFacts.capitalize_cons. Qed.

Lemma convert_intent_str (intent : string) :
  _convert_intent_to_method (JStr intent)
  = inr (match intent_method_map !! intent with
         | Some method => method
         | None => fallback_rule intent
         end).
Proof.
  unfold _convert_intent_to_method, _default_method_conversion, fallback_rule.
  simpl. destruct (PyStr.split intent) as [|w0 rest]; simpl; [reflexivity|].
  rewrite PyStrFacts.join_empty_concat.
  rewrite (map_ext _ _ capitalize_camel_token). reflexivity.
Qed.

(** An intent of the table maps to its method, whatever the fallback says. *)
Lemma mapped_intent (intent method : string) :
  intent_method_map !! intent = Some method ->
  _convert_intent_to_method (JStr intent) = inr method.
Proof. intros H. by rewrite convert_intent_str, H. Qed.

Example get_weather_mapped :
  _convert_intent_to_method (JStr "查询天气") = inr "getWeather".
Proof. reflexivity. Qed.




(** ** Parameters *)

Lemma convert_params_absent (anp_request : pydict) :
  PyDict.lookup "parameters" anp_request = None ->
  _convert_anp_params_to_mcp (PyDict.get "parameters" (JObj []) anp_request)
  = inr [].
Proof. intros H. by rewrite (PyDictFacts.get_absent _ _ _ H). Qed.

Lemma convert_params_mapping (anp_request parameters : pydict) :
  PyDict.lookup "parameters" anp_request = Some (JObj parameters) ->
  _convert_anp_params_to_mcp (PyDict.get "parameters" (JObj []) anp_request)
  = inr (convert_items parameters).
Proof. intros H. by rewrite (PyDictFacts.get_lookup _ _ _ _ H). Qed.

Example rename_known_keys :
  convert_items [ ("user_id", JStr "u1"); ("city", JStr "北京") ]
  = [ ("userId", JStr "u1"); ("cityName", JStr "北京") ].
Proof. reflexivity. Qed.

(** ** [anp_to_mcp] *)




(** C4.  A request in which the key [did] or the key [intent] is absent is
    refused with [INVALID_ANP_FORMAT], and the bridge, its session store
    included, is left as it was. *)
Theorem missing_field_invalid_format (self : AnpMcpBridge)
    (anp_request : pydict) (uuid_hex now : string) :
  PyDict.mem "did" anp_request = false
  \/ PyDict.mem "intent" anp_request = false ->
  anp_to_mcp anp_request uuid_hex now self
  = (inr (JObj [ ("success", JBool false);
                 ("error", JStr "无效的ANP请求格式");
                 ("error_code", JStr "INVALID_ANP_FORMAT") ]),
     self).
Proof.
  intros H. apply anp_to_mcp_invalid_format.
  by apply validate_anp_request_false.
Qed.

Lemma missing_field_invalid_format_witness :
  PyDict.mem "intent" [ ("did", JStr "did:anp:alice") ] = false
  /\ anp_to_mcp [ ("did", JStr "did:anp:alice") ] weather_uuid weather_now
       alice_bridge
     = (inr (failure "无效的ANP请求格式" "INVALID_ANP_FORMAT"), alice_bridge).
Proof.
  split; [reflexivity|].
  apply (missing_field_invalid_format alice_bridge
           [ ("did", JStr "did:anp:alice") ] weather_uuid weather_now).
  right. reflexivity.
Defined.




(** The empty string is refused even when it was registered. *)
Example empty_registered_did_refused :
  anp_to_mcp [ ("did", JStr ""); ("intent", JStr "查询天气") ]
    weather_uuid weather_now (snd (register_did "" "token" new_bridge))
  = (inr (failure "无效的DID" "INVALID_DID"),
     snd (register_did "" "token" new_bridge)).
Proof. reflexivity. Qed.

(** A falsy [did] of any type is refused; a [did] that cannot be hashed makes
    the membership test raise. *)
Example null_did_refused :
  fst (anp_to_mcp [ ("did", JNull); ("intent", JStr "查询天气") ]
         weather_uuid weather_now alice_bridge)
  = inr (failure "无效的DID" "INVALID_DID").
Proof. reflexivity. Qed.


(** C10.  Whenever [anp_to_mcp] returns a failure, its code is one of
    [INVALID_ANP_FORMAT], [INVALID_DID] and [CONVERSION_ERROR], and neither
    the session store nor the registry has changed: the session is written
    last, on the path that succeeds. *)
Theorem failed_anp_to_mcp_leaves_stores (self self' : AnpMcpBridge)
    (anp_request : pydict) (uuid_hex now : string) (r : json) :
  anp_to_mcp anp_request uuid_hex now self = (inr r, self') ->
  field "success" r = Some (JBool false) ->
  session_map self' = session_map self
  /\ did_oauth_map self' = did_oauth_map self
  /\ self' = self
  /\ (field "error_code" r = Some (JStr "INVALID_ANP_FORMAT")
      \/ field "error_code" r = Some (JStr "INVALID_DID")
      \/ field "error_code" r = Some (JStr "CONVERSION_ERROR")).
Proof.
  intros Hrun Hfail.
  destruct (anp_to_mcp_outcome anp_request uuid_hex now self)
    as (r0 & self0 & Hrun0 & Hout).
  rewrite Hrun in Hrun0. injection Hrun0 as <- <-.
  inversion Hout; subst; try discriminate; repeat split; auto.
Qed.

Lemma failed_anp_to_mcp_leaves_stores_witness :
  let run :=
    anp_to_mcp [ ("did", JStr "did:anp:alice"); ("intent", JStr "查询天气");
                 ("parameters", JNull) ]
      weather_uuid weather_now alice_waiting in
  let r := conversion_error (AttributeError "NoneType" "items") in
  session_map (snd run) = session_map alice_waiting
  /\ did_oauth_map (snd run) = did_oauth_map alice_waiting
  /\ snd run = alice_waiting
  /\ (field "error_code" r = Some (JStr "INVALID_ANP_FORMAT")
      \/ field "error_code" r = Some (JStr "INVALID_DID")
      \/ field "error_code" r = Some (JStr "CONVERSION_ERROR")).
Proof.
  intros run r.
  apply (failed_anp_to_mcp_leaves_stores alice_waiting (snd run)
           [ ("did", JStr "did:anp:alice"); ("intent", JStr "查询天气");
             ("parameters", JNull) ]
           weather_uuid weather_now r).
  - reflexivity.
  - reflexivity.
Defined.

(** On the path that succeeds the registry is untouched and the session
    store gains the entry of the new request id. *)
Lemma translated_anp_to_mcp_stores (self self' : AnpMcpBridge)
    (anp_request : pydict) (uuid_hex now : string) (r : json) :
  anp_to_mcp anp_request uuid_hex now self = (inr r, self') ->
  field "success" r = Some (JBool true) ->
  did_oauth_map self' = did_oauth_map self
  /\ exists did,
      PyDict.lookup "did" anp_request = Some did
      /\ session_map self'
         = <["req-" +:+ PyStr.prefix 8 uuid_hex :=
               {| sess_anp_request := anp_request;
                  sess_timestamp := now;
                  sess_did := did |}]> (session_map self).
Proof.
  intros Hrun Hok.
  destruct (anp_to_mcp_outcome anp_request uuid_hex now self)
    as (r0 & self0 & Hrun0 & Hout).
  rewrite Hrun in Hrun0. injection Hrun0 as <- <-.
  inversion Hout; subst; try discriminate.
  split; [reflexivity|]. eexists. split; [eassumption|reflexivity].
Qed.

(** ** [mcp_to_anp] *)

Lemma get_code_invalid_mcp_format (error : pydict) :
  PyDict.get "code" (JStr "UNKNOWN_ERROR") error = JStr "INVALID_MCP_FORMAT"
  <-> PyDict.lookup "code" error = Some (JStr "INVALID_MCP_FORMAT").
Proof.
  unfold PyDict.get. destruct (PyDict.lookup "code" error) as [v|]; split.
  - by intros ->.
  - by intros [= ->].
  - discriminate.
  - discriminate.
Qed.

(** C6, as amended.  [mcp_to_anp] answers with its own validation failure
    (the code [INVALID_MCP_FORMAT], no context) exactly when the response
    lacks the key [jsonrpc], or lacks the key [id], or has neither [result]
    nor [error]; a response with [jsonrpc], [id] and one of [result] and
    [error] passes the validation.  A failure under the code
    [INVALID_MCP_FORMAT] is returned in these cases and in one more: a
    valid response, under an id with a stored session, whose [error]
    object carries that very code, which is passed through. *)
Theorem invalid_mcp_format_code_iff (self self' : AnpMcpBridge)
    (mcp_response : pydict) (r : json) :
  mcp_to_anp mcp_response self = (inr r, self') ->
  let lacking :=
    PyDict.mem "jsonrpc" mcp_response = false
    \/ PyDict.mem "id" mcp_response = false
    \/ (PyDict.mem "result" mcp_response = false
        /\ PyDict.mem "error" mcp_response = false) in
  (r = JObj [ ("success", JBool false);
              ("error", JStr "无效的MCP响应格式");
              ("error_code", JStr "INVALID_MCP_FORMAT") ]
   <-> lacking)
  /\ (_validate_mcp_response mcp_response = true
      <-> PyDict.mem "jsonrpc" mcp_response = true
          /\ PyDict.mem "id" mcp_response = true
          /\ (PyDict.mem "result" mcp_response = true
              \/ PyDict.mem "error" mcp_response = true))
  /\ (field "error_code" r = Some (JStr "INVALID_MCP_FORMAT")
      <-> lacking
          \/ (exists request_id info error,
                 _validate_mcp_response mcp_response = true
                 /\ PyDict.lookup "id" mcp_response = Some (JStr request_id)
                 /\ session_map self !! request_id = Some info
                 /\ PyDict.lookup "error" mcp_response = Some (JObj error)
                 /\ PyDict.lookup "code" error
                    = Some (JStr "INVALID_MCP_FORMAT"))).
Proof.
  intros Hrun lacking. subst lacking.
  rewrite <- validate_mcp_response_false.
  destruct (mcp_to_anp_outcome mcp_response self) as (r0 & Hrun0 & Hout).
  rewrite Hrun in Hrun0. injection Hrun0 as <- <-.
  split; [|split; [apply validate_mcp_response_true|]].
  - split.
    + intros ->. inversion Hout as [Hv Hr | | | | ]. exact Hv.
    + intros Hv. rewrite (mcp_to_anp_invalid_format _ _ Hv) in Hrun.
      by injection Hrun as <-.
  - split.
    + intros Hcode.
      inversion Hout as [ Hv Hr | Hv Hget Hr | e Hv Hbody Hr
                        | request_id info error Hv Hid Hs He Hr
                        | request_id info Hv Hid Hs He Hr ];
        subst r; try discriminate.
      * by left.
      * right. exists request_id, info, error. repeat split; try done.
        simpl in Hcode. injection Hcode as Hcode.
        by apply get_code_invalid_mcp_format.
    + intros [Hv | (request_id & info & error & Hv & Hid & Hs & He & Hcode)].
      * rewrite (mcp_to_anp_invalid_format _ _ Hv) in Hrun.
        by injection Hrun as <-.
      * rewrite (mcp_to_anp_upstream_error _ _ _ _ _ Hv Hid Hs He) in Hrun.
        injection Hrun as <-. simpl.
        by rewrite (proj2 (get_code_invalid_mcp_format error) Hcode).
Qed.

Lemma invalid_mcp_format_code_iff_witness :
  mcp_to_anp [ ("jsonrpc", JStr "2.0"); ("id", JStr "req-3f2a9c1e") ]
    alice_waiting
  = (inr (failure "无效的MCP响应格式" "INVALID_MCP_FORMAT"), alice_waiting)
  /\ (failure "无效的MCP响应格式" "INVALID_MCP_FORMAT"
      = JObj [ ("success", JBool false);
               ("error", JStr "无效的MCP响应格式");
               ("error_code", JStr "INVALID_MCP_FORMAT") ]
      <-> PyDict.mem "jsonrpc"
            [ ("jsonrpc", JStr "2.0"); ("id", JStr "req-3f2a9c1e") ] = false
          \/ PyDict.mem "id"
               [ ("jsonrpc", JStr "2.0"); ("id", JStr "req-3f2a9c1e") ] = false
          \/ (PyDict.mem "result"
                [ ("jsonrpc", JStr "2.0"); ("id", JStr "req-3f2a9c1e") ] = false
              /\ PyDict.mem "error"
                   [ ("jsonrpc", JStr "2.0"); ("id", JStr "req-3f2a9c1e") ]
                 = false)).
Proof.
  split; [reflexivity|].
  exact (proj1 (invalid_mcp_format_code_iff alice_waiting alice_waiting
                  [ ("jsonrpc", JStr "2.0"); ("id", JStr "req-3f2a9c1e") ]
                  (failure "无效的MCP响应格式" "INVALID_MCP_FORMAT") eq_refl)).
Defined.

(** C6, as stated, fails: a response that lacks nothing, under an id with
    a stored session, whose [error] object carries the code
    ["INVALID_MCP_FORMAT"], is answered by a failure under that code. *)
Lemma upstream_code_invalid_mcp_format :
  PyDict.mem "jsonrpc"
    [ ("jsonrpc", JStr "2.0"); ("id", JStr "req-3f2a9c1e");
      ("error", JObj [ ("code", JStr "INVALID_MCP_FORMAT");
                       ("message", JStr "bad frame") ]) ] = true
  /\ PyDict.mem "id"
       [ ("jsonrpc", JStr "2.0"); ("id", JStr "req-3f2a9c1e");
         ("error", JObj [ ("code", JStr "INVALID_MCP_FORMAT");
                          ("message", JStr "bad frame") ]) ] = true
  /\ PyDict.mem "error"
       [ ("jsonrpc", JStr "2.0"); ("id", JStr "req-3f2a9c1e");
         ("error", JObj [ ("code", JStr "INVALID_MCP_FORMAT");
                          ("message", JStr "bad frame") ]) ] = true
  /\ snd (anp_to_mcp weather_request weather_uuid weather_now alice_bridge)
     = alice_waiting
  /\ mcp_to_anp
       [ ("jsonrpc", JStr "2.0"); ("id", JStr "req-3f2a9c1e");
         ("error", JObj [ ("code", JStr "INVALID_MCP_FORMAT");
                          ("message", JStr "bad frame") ]) ]
       alice_waiting
     = (inr (JObj [ ("success", JBool false);
                    ("error", JStr "bad frame");
                    ("error_code", JStr "INVALID_MCP_FORMAT");
                    ("context",
                     JObj [ ("request_id", JStr "req-3f2a9c1e");
                            ("original_intent", JStr "查询天气") ]) ]),
        alice_waiting).
Proof. repeat split; reflexivity. Qed.



(** An [error] object without [message] or [code] is surfaced under the
    defaults of the source. *)
Example upstream_error_defaults :
  fst (mcp_to_anp [ ("jsonrpc", JStr "2.0"); ("id", JStr "req-3f2a9c1e");
                    ("error", JObj []) ] alice_waiting)
  = inr (JObj [ ("success", JBool false);
                ("error", JStr "未知错误");
                ("error_code", JStr "UNKNOWN_ERROR");
                ("context",
                 JObj [ ("request_id", JStr "req-3f2a9c1e");
                        ("original_intent", JStr "查询天气") ]) ]).
Proof. reflexivity. Qed.

(** ** Sessions *)

Lemma absent_session_not_found (self : AnpMcpBridge) (request_id : string) :
  session_map self !! request_id = None ->
  get_session_info request_id self = (inr None, self)
  /\ forall mcp_response,
      _validate_mcp_response mcp_response = true ->
      PyDict.lookup "id" mcp_response = Some (JStr request_id) ->
      mcp_to_anp mcp_response self
      = (inr (failure "未找到对应的会话信息" "SESSION_NOT_FOUND"), self).
Proof.
  intros Hs. split.
  - unfold get_session_info, gets. by rewrite Hs.
  - intros mcp_response Hv Hid. by eapply mcp_to_anp_session_not_found.
Qed.

(** C8.  [clear_session] returns [True] exactly when the id had an entry,
    and the store it leaves is the former one without that id.  On the
    bridge it leaves, as on any bridge where the id has no entry,
    [get_session_info] gives [None] and [mcp_to_anp] answers a well-formed
    response under that id with [SESSION_NOT_FOUND]. *)
Theorem clear_session_then_not_found (self : AnpMcpBridge) (request_id : string) :
  (exists present self',
      clear_session request_id self = (inr present, self')
      /\ (present = true <-> is_Some (session_map self !! request_id))
      /\ session_map self' = delete request_id (session_map self)
      /\ did_oauth_map self' = did_oauth_map self
      /\ get_session_info request_id self' = (inr None, self')
      /\ forall mcp_response,
          _validate_mcp_response mcp_response = true ->
          PyDict.lookup "id" mcp_response = Some (JStr request_id) ->
          mcp_to_anp mcp_response self'
          = (inr (JObj [ ("success", JBool false);
                         ("error", JStr "未找到对应的会话信息");
                         ("error_code", JStr "SESSION_NOT_FOUND") ]),
             self'))
  /\ (session_map self !! request_id = None ->
      clear_session request_id self = (inr false, self)
      /\ get_session_info request_id self = (inr None, self)
      /\ forall mcp_response,
          _validate_mcp_response mcp_response = true ->
          PyDict.lookup "id" mcp_response = Some (JStr request_id) ->
          mcp_to_anp mcp_response self
          = (inr (JObj [ ("success", JBool false);
                         ("error", JStr "未找到对应的会话信息");
                         ("error_code", JStr "SESSION_NOT_FOUND") ]),
             self)).
Proof.
  split.
  - unfold clear_session. run_monad.
    destruct (session_map self !! request_id) as [info|] eqn:Hs; simpl.
    + eexists true, _. split; [reflexivity|]. simpl.
      split; [by split; eauto|]. split; [reflexivity|]. split; [reflexivity|].
      apply absent_session_not_found. simpl. apply lookup_delete_eq.
    + eexists false, _. split; [reflexivity|].
      split; [split; [discriminate | by intros [? [=]]]|].
      split; [by rewrite delete_id|]. split; [reflexivity|].
      by apply absent_session_not_found.
  - intros Hs. split; [|by apply absent_session_not_found].
    unfold clear_session. run_monad. by rewrite Hs.
Qed.

Lemma clear_session_then_not_found_witness :
  clear_session "req-3f2a9c1e" alice_bridge = (inr false, alice_bridge)
  /\ get_session_info "req-3f2a9c1e" alice_bridge = (inr None, alice_bridge).
Proof.
  destruct (proj2 (clear_session_then_not_found alice_bridge "req-3f2a9c1e")
              eq_refl) as (Hclear & Hget & _).
  split; [exact Hclear | exact Hget].
Defined.

Example clear_stored_session :
  fst (clear_session "req-3f2a9c1e" alice_waiting) = inr true
  /\ session_map (snd (clear_session "req-3f2a9c1e" alice_waiting))
     !! "req-3f2a9c1e" = None.
Proof. split; reflexivity. Qed.

(** ** The round trip *)

(** C2.  When [anp_to_mcp] succeeds on a request and returns a request id,
    a response with [jsonrpc], that id as [id], a [result] and no [error],
    handed to [mcp_to_anp] on the bridge so obtained, gives a success
    whose [data] is that [result] as it came and whose context holds the
    [intent] of the request, the request id, and the [did] kept in the
    session, which is the [did] of the request. *)
Theorem round_trip_success (self self' : AnpMcpBridge)
    (anp_request mcp_response : pydict) (uuid_hex now : string)
    (r request_id result : json) :
  anp_to_mcp anp_request uuid_hex now self = (inr r, self') ->
  field "success" r = Some (JBool true) ->
  field "request_id" r = Some request_id ->
  PyDict.mem "jsonrpc" mcp_response = true ->
  PyDict.lookup "id" mcp_response = Some request_id ->
  PyDict.lookup "result" mcp_response = Some result ->
  PyDict.lookup "error" mcp_response = None ->
  exists did intent,
    PyDict.lookup "did" anp_request = Some did
    /\ PyDict.lookup "intent" anp_request = Some intent
    /\ mcp_to_anp mcp_response self'
       = (inr (JObj [ ("success", JBool true);
                      ("data", result);
                      ("context",
                       JObj [ ("intent", intent);
                              ("request_id", request_id);
                              ("did", did) ]) ]),
          self').
Proof.
  intros Hrun Hok Hrid Hrpc Hid Hres Herr.
  destruct (anp_to_mcp_outcome anp_request uuid_hex now self)
    as (r0 & self0 & Hrun0 & Hout).
  rewrite Hrun in Hrun0. injection Hrun0 as <- <-.
  inversion Hout as [ | | | d oauth_token method params Hv Hdid Hne Hreg Hm Hp];
    subst; try discriminate.
  simpl in Hrid. injection Hrid as <-.
  apply validate_anp_request_true in Hv
    as [_ [intent Hintent]%PyDictFacts.mem_true_lookup].
  exists (JStr d), intent. split; [done|]. split; [done|].
  rewrite <- (PyDictFacts.get_lookup _ (JObj []) _ _ Hres).
  rewrite <- (PyDictFacts.get_lookup _ JNull _ _ Hintent).
  apply (mcp_to_anp_answered _ _ _
           {| sess_anp_request := anp_request;
              sess_timestamp := now;
              sess_did := JStr d |}); try done.
  - apply validate_mcp_response_true. repeat split; [done| |].
    + apply PyDictFacts.mem_true_lookup. eauto.
    + left. apply PyDictFacts.mem_true_lookup. eauto.
  - simpl. apply lookup_insert_eq.
Qed.

Lemma round_trip_success_witness :
  exists did intent,
    PyDict.lookup "did" weather_request = Some did
    /\ PyDict.lookup "intent" weather_request = Some intent
    /\ mcp_to_anp
         [ ("jsonrpc", JStr "2.0");
           ("result", JObj [ ("temperature", JInt 21) ]);
           ("id", JStr "req-3f2a9c1e") ]
         alice_waiting
       = (inr (JObj [ ("success", JBool true);
                      ("data", JObj [ ("temperature", JInt 21) ]);
                      ("context",
                       JObj [ ("intent", intent);
                              ("request_id", JStr "req-3f2a9c1e");
                              ("did", did) ]) ]),
          alice_waiting).
Proof.
  apply (round_trip_success alice_bridge alice_waiting weather_request
           [ ("jsonrpc", JStr "2.0");
             ("result", JObj [ ("temperature", JInt 21) ]);
             ("id", JStr "req-3f2a9c1e") ]
           weather_uuid weather_now
           (translated "getWeather"
              [ ("cityName", JStr "北京"); ("queryDate", JStr "today") ]
              "req-3f2a9c1e" "token-alice")
           (JStr "req-3f2a9c1e") (JObj [ ("temperature", JInt 21) ]));
    reflexivity.
Defined.

(** ** No exception leaves the bridge *)

Lemma anp_outcome_is_result (anp_request : pydict) (uuid_hex now : string)
    (self self' : AnpMcpBridge) (r : json) :
  anp_outcome anp_request uuid_hex now self r self' -> is_result r.
Proof.
  intros Hout. inversion Hout; subst;
    solve [ left; split; reflexivity
          | right; split; [reflexivity | eexists; reflexivity] ].
Qed.

Lemma mcp_outcome_is_result (mcp_response : pydict) (self : AnpMcpBridge)
    (r : json) :
  mcp_outcome mcp_response self r -> is_result r.
Proof.
  intros Hout. inversion Hout; subst;
    solve [ left; split; reflexivity
          | right; split; [reflexivity | eexists; reflexivity] ].
Qed.

(** C9.  On every request mapping [anp_to_mcp], and on every response
    mapping [mcp_to_anp], returns a discriminated result and raises
    nothing; whatever exception the translation raises inside is answered
    with the [CONVERSION_ERROR] failure that carries its text. *)
Theorem translations_never_raise (self : AnpMcpBridge)
    (anp_request mcp_response : pydict) (uuid_hex now : string) :
  (exists r self',
      anp_to_mcp anp_request uuid_hex now self = (inr r, self')
      /\ is_result r
      /\ forall e s,
          anp_to_mcp_body anp_request uuid_hex now self = (inl e, s) ->
          r = JObj [ ("success", JBool false);
                     ("error", JStr ("转换失败: " +:+ str_exn e));
                     ("error_code", JStr "CONVERSION_ERROR") ])
  /\ (exists r self',
         mcp_to_anp mcp_response self = (inr r, self')
         /\ is_result r
         /\ forall e s,
             mcp_to_anp_body mcp_response self = (inl e, s) ->
             r = JObj [ ("success", JBool false);
                        ("error", JStr ("转换失败: " +:+ str_exn e));
                        ("error_code", JStr "CONVERSION_ERROR") ]).
Proof.
  split.
  - destruct (anp_to_mcp_outcome anp_request uuid_hex now self)
      as (r & self' & Hrun & Hout).
    exists r, self'. split; [done|]. split; [by eapply anp_outcome_is_result|].
    intros e s Hbody. unfold anp_to_mcp, try_except in Hrun.
    rewrite Hbody in Hrun. by injection Hrun as <- _.
  - destruct (mcp_to_anp_outcome mcp_response self) as (r & Hrun & Hout).
    exists r, self. split; [done|]. split; [by eapply mcp_outcome_is_result|].
    intros e s Hbody. unfold mcp_to_anp, try_except in Hrun.
    rewrite Hbody in Hrun. by injection Hrun as <-.
Qed.

(** Malformed input that passes validation and breaks a later step. *)
Example null_parameters_caught :
  fst (anp_to_mcp [ ("did", JStr "did:anp:alice"); ("intent", JStr "查询天气");
                    ("parameters", JNull) ]
         weather_uuid weather_now alice_bridge)
  = inr (failure "转换失败: 'NoneType' object has no attribute 'items'"
           "CONVERSION_ERROR").
Proof. reflexivity. Qed.

Example number_intent_caught :
  fst (anp_to_mcp [ ("did", JStr "did:anp:alice"); ("intent", JInt 7) ]
         weather_uuid weather_now alice_bridge)
  = inr (failure "转换失败: 'int' object has no attribute 'split'"
           "CONVERSION_ERROR").
Proof. reflexivity. Qed.

Example list_did_caught :
  fst (anp_to_mcp [ ("did", JArr [JStr "did:anp:alice"]);
                    ("intent", JStr "查询天气") ]
         weather_uuid weather_now alice_bridge)
  = inr (failure "转换失败: unhashable type: 'list'" "CONVERSION_ERROR").
Proof. reflexivity. Qed.

Example text_error_caught :
  fst (mcp_to_anp [ ("jsonrpc", JStr "2.0"); ("id", JStr "req-3f2a9c1e");
                    ("error", JStr "boom") ] alice_waiting)
  = inr (failure "转换失败: 'str' object has no attribute 'get'"
           "CONVERSION_ERROR").
Proof. reflexivity. Qed.

(** * The rest of the bridge *)

(** ** The two tables *)

Lemma intent_method_items_NoDup : NoDup (intent_method_items.*1).
Proof. apply (bool_decide_unpack _). by vm_compute. Qed.

Lemma method_intent_map_items :
  method_intent_map
  = list_to_map (reverse (map (fun kv => (snd kv, fst kv)) intent_method_items)).
Proof. reflexivity. Qed.

Lemma method_intent_items_NoDup :
  NoDup ((reverse (map (fun kv : string * string => (snd kv, fst kv))
                     intent_method_items)).*1).
Proof. apply (bool_decide_unpack _). by vm_compute. Qed.

(** The reverse table is the inverse of the table: no method is the
    image of two intents, and each pair is found from either side. *)
Lemma method_intent_map_inverse (intent method : string) :
  intent_method_map !! intent = Some method
  <-> method_intent_map !! method = Some intent.
Proof.
  rewrite method_intent_map_items. unfold intent_method_map.
  rewrite <- !elem_of_list_to_map
    by (apply intent_method_items_NoDup || apply method_intent_items_NoDup).
  rewrite elem_of_reverse, list_elem_of_fmap. split.
  - intros Hin. by exists (intent, method).
  - intros [[i m] [[= -> ->] Hin]]. exact Hin.
Qed.

(** A method of the table goes back to its intent; any other method goes
    back to itself. *)
Theorem method_to_intent_spec (method : string) :
  (forall intent,
      intent_method_map !! intent = Some method ->
      _convert_intent_to_method (JStr intent) = inr method
      /\ _convert_method_to_intent method = intent)
  /\ ((forall intent, intent_method_map !! intent <> Some method) ->
      _convert_method_to_intent method = method).
Proof.
  unfold _convert_method_to_intent. split.
  - intros intent Hin. split; [by apply mapped_intent|].
    apply method_intent_map_inverse in Hin. by rewrite Hin.
  - intros Hnone.
    destruct (method_intent_map !! method) as [intent|] eqn:Hm; [|reflexivity].
    apply method_intent_map_inverse in Hm. by destruct (Hnone intent).
Qed.

(** Going to a method and back is lossy: the fallback can land on a method
    of the table, which then goes back to the intent of the table. *)
Theorem intent_to_method_not_injective :
  exists intent intent' method,
    intent <> intent'
    /\ _convert_intent_to_method (JStr intent) = inr method
    /\ _convert_intent_to_method (JStr intent') = inr method
    /\ _convert_method_to_intent method <> intent'.
Proof.
  exists "查询天气", "get weather", "getWeather".
  repeat split; try reflexivity; discriminate.
Qed.

(** ** The shape of a method name *)

Module CaseFacts.
Import PyStr PyStrFacts.
















End CaseFacts.









(** ** Parameter renaming *)

Module ConvertItems.
Import PyDict PyDictFacts.

(** One turn of the loop of [_convert_anp_params_to_mcp]. *)
Lemma convert_items_fold (items : pydict) :
  convert_items items
  = fold_left (fun converted kv => set (rename_key (fst kv)) (snd kv) converted)
      items [].
Proof. reflexivity. Qed.

Lemma lookup_app k (d1 d2 : pydict) :
  lookup k (d1 ++ d2)%list
  = match lookup k d1 with Some v => Some v | None => lookup k d2 end.
Proof.
  induction d1 as [|[k1 v1] d1 IH]; [reflexivity|]. simpl.
  by destruct (String.eqb k k1).
Qed.

Lemma lookup_fold k (items converted : pydict) :
  lookup k (fold_left (fun converted kv =>
                         set (rename_key (fst kv)) (snd kv) converted)
              items converted)
  = match lookup k (reverse (map rename_item items)) with
    | Some v => Some v
    | None => lookup k converted
    end.
Proof.
  revert converted. induction items as [|[k0 v0] items IH]; intros converted.
  - reflexivity.
  - simpl. rewrite IH, reverse_cons, lookup_app.
    destruct (lookup k (reverse (map rename_item items))); [reflexivity|].
    unfold rename_item. simpl.
    destruct (String.eqb k (rename_key k0)) eqn:E.
    + apply String.eqb_eq in E as ->. apply lookup_set_eq.
    + apply String.eqb_neq in E. by apply lookup_set_ne.
Qed.

Lemma keys_set_elem k k' v (d : pydict) :
  k' ∈ keys (set k v d) -> k' = k \/ k' ∈ keys d.
Proof.
  unfold keys. induction d as [|[k0 v0] d IH]; simpl.
  - intros ->%list_elem_of_singleton. by left.
  - destruct (String.eqb k k0) eqn:E; simpl.
    + intros H. by right.
    + intros [->|H]%elem_of_cons.
      * right. by left.
      * destruct (IH H) as [->|Hin]; [by left|]. right. by right.
Qed.

Lemma set_fresh k v (d : pydict) : k ∉ keys d -> set k v d = (d ++ [(k, v)])%list.
Proof.
  unfold keys. induction d as [|[k0 v0] d IH]; simpl; intros Hnin.
  - reflexivity.
  - apply not_elem_of_cons in Hnin as [Hne Hnin].
    apply String.eqb_neq in Hne. rewrite Hne. by rewrite IH.
Qed.

Lemma fold_fresh (items converted : pydict) :
  NoDup (keys converted ++ map rename_key (keys items))%list ->
  fold_left (fun converted kv => set (rename_key (fst kv)) (snd kv) converted)
    items converted
  = (converted ++ map rename_item items)%list.
Proof.
  revert converted. unfold keys.
  induction items as [|[k0 v0] items IH]; intros converted Hnd; simpl.
  - by rewrite app_nil_r.
  - simpl in Hnd. apply NoDup_app in Hnd as (Hc & Hdisj & Hi).
    apply NoDup_cons in Hi as [Hk0 Hi].
    rewrite set_fresh.
    2:{ intros Hin. apply (Hdisj _ Hin). by left. }
    rewrite IH.
    + by rewrite <- app_assoc.
    + rewrite map_app. simpl. rewrite <- app_assoc. simpl.
      apply NoDup_app. split; [exact Hc|]. split.
      * intros k Hin. apply Hdisj. exact Hin.
      * by apply NoDup_cons.
Qed.

Lemma fold_NoDup (items converted : pydict) :
  NoDup (keys converted) ->
  NoDup (keys (fold_left (fun converted kv =>
                            set (rename_key (fst kv)) (snd kv) converted)
                 items converted)).
Proof.
  revert converted. induction items as [|kv items IH]; intros converted Hnd.
  - exact Hnd.
  - simpl. apply IH. by apply keys_set_NoDup.
Qed.

Lemma fold_keys (items converted : pydict) k :
  k ∈ keys (fold_left (fun converted kv =>
                         set (rename_key (fst kv)) (snd kv) converted)
              items converted) ->
  k ∈ keys converted \/ exists k0, k0 ∈ keys items /\ k = rename_key k0.
Proof.
  revert converted. induction items as [|[k0 v0] items IH]; intros converted.
  - by left.
  - simpl. intros Hin. destruct (IH _ Hin) as [Hset|(k1 & Hk1 & ->)].
    + destruct (keys_set_elem _ _ _ _ Hset) as [->|Hc]; [|by left].
      right. exists k0. split; [by left|reflexivity].
    + right. exists k1. split; [by right|reflexivity].
Qed.

Lemma param_key_map_elem (k k' : string) :
  param_key_map !! k = Some k' -> (k, k') ∈ param_key_items.
Proof. apply elem_of_list_to_map_2. Qed.

(** No new name is itself an old name: renaming twice is renaming once. *)
Lemma rename_key_idem (k : string) : rename_key (rename_key k) = rename_key k.
Proof.
  unfold rename_key at 2. destruct (param_key_map !! k) as [k'|] eqn:Hk.
  - apply param_key_map_elem in Hk. unfold param_key_items in Hk.
    rewrite !elem_of_cons, elem_of_nil in Hk.
    repeat (destruct Hk as [[= -> ->]|Hk]; [reflexivity|]). done.
  - unfold rename_key. by rewrite Hk.
Qed.

End ConvertItems.

(** When no two parameters end under the same name, the converted
    parameters are the given ones in their order, each known key renamed,
    each other key and every value as it came. *)
Theorem convert_items_renames (items : pydict) :
  NoDup (map rename_key (PyDict.keys items)) ->
  convert_items items = map rename_item items.
Proof.
  intros Hnd. rewrite ConvertItems.convert_items_fold.
  by rewrite ConvertItems.fold_fresh.
Qed.

Lemma convert_items_renames_witness :
  convert_items [ ("user_id", JStr "u1"); ("city", JStr "北京");
                  ("limit", JInt 5) ]
  = [ ("userId", JStr "u1"); ("cityName", JStr "北京"); ("limit", JInt 5) ].
Proof.
  apply (convert_items_renames
           [ ("user_id", JStr "u1"); ("city", JStr "北京"); ("limit", JInt 5) ]).
  apply (bool_decide_unpack _). by vm_compute.
Defined.

(** In every case the value found under a name in the converted
    parameters is that of the last parameter renamed to it: where two
    parameters collide, the later one wins. *)
Theorem convert_items_lookup (items : pydict) (k : string) :
  PyDict.lookup k (convert_items items)
  = PyDict.lookup k (reverse (map rename_item items)).
Proof.
  rewrite ConvertItems.convert_items_fold, ConvertItems.lookup_fold.
  by destruct (PyDict.lookup k (reverse (map rename_item items))).
Qed.

Example convert_items_collision :
  convert_items [ ("userId", JInt 1); ("limit", JInt 5); ("user_id", JInt 2) ]
  = [ ("userId", JInt 2); ("limit", JInt 5) ].
Proof. reflexivity. Qed.

(** The converted parameters never hold a key twice, and converting them
    again changes nothing. *)
Theorem convert_items_idempotent (items : pydict) :
  NoDup (PyDict.keys (convert_items items))
  /\ convert_items (convert_items items) = convert_items items.
Proof.
  assert (NoDup (PyDict.keys (convert_items items))) as Hnd.
  { rewrite ConvertItems.convert_items_fold. apply ConvertItems.fold_NoDup.
    constructor. }
  split; [exact Hnd|].
  assert (Forall (fun kv => rename_key (fst kv) = fst kv) (convert_items items))
    as Hfix.
  { apply Forall_forall. intros [k v] Hin.
    assert (k ∈ PyDict.keys (convert_items items)) as Hk.
    { unfold PyDict.keys. apply list_elem_of_fmap. by exists (k, v). }
    rewrite ConvertItems.convert_items_fold in Hk.
    apply ConvertItems.fold_keys in Hk as [Hk|(k0 & _ & ->)].
    - by apply elem_of_nil in Hk.
    - simpl. apply ConvertItems.rename_key_idem. }
  assert (map rename_item (convert_items items) = convert_items items) as Hid.
  { clear Hnd. induction Hfix as [|[k v] d Hk Hd IH]; [reflexivity|].
    simpl in *. unfold rename_item at 1. simpl. by rewrite Hk, IH. }
  rewrite ConvertItems.convert_items_fold at 1.
  rewrite ConvertItems.fold_fresh; [exact Hid|]. simpl.
  unfold PyDict.keys in *.
  replace (map rename_key (map fst (convert_items items)))
    with (map fst (map rename_item (convert_items items)))
    by (by rewrite !map_map).
  by rewrite Hid.
Qed.

(** ** What each method reads and what it writes *)

(** The answer of [mcp_to_anp] depends on the bridge through the session
    stored under the id of the response, and through nothing else. *)
Lemma mcp_to_anp_reads_one_session (mcp_response : pydict)
    (self1 self2 : AnpMcpBridge) :
  (forall k, PyDict.lookup "id" mcp_response = Some (JStr k) ->
             session_map self1 !! k = session_map self2 !! k) ->
  fst (mcp_to_anp mcp_response self1) = fst (mcp_to_anp mcp_response self2).
Proof.
  intros Hsame. unfold mcp_to_anp, mcp_to_anp_body.
  destruct (_validate_mcp_response mcp_response); [|reflexivity]. simpl.
  unfold PyDict.get. run_monad.
  destruct (PyDict.lookup "id" mcp_response) as [[| b | n | r | k | l | f]|];
    simpl; try reflexivity.
  rewrite (Hsame k eq_refl).
  destruct (session_map self2 !! k); simpl; [|reflexivity].
  destruct (PyDict.mem "error" mcp_response); simpl; [|reflexivity].
  destruct (PyDict.lookup "error" mcp_response) as [[| | | | | | ]|];
    simpl; reflexivity.
Qed.

Lemma get_str_lookup k (d : pydict) (s : string) :
  PyDict.get k JNull d = JStr s -> PyDict.lookup k d = Some (JStr s).
Proof. unfold PyDict.get. destruct (PyDict.lookup k d); [by intros ->|done]. Qed.

(** The result of [anp_to_mcp] depends on the bridge through the token
    registered for the [did] of the request, and through nothing else. *)
Lemma anp_to_mcp_reads_one_token (anp_request : pydict) (uuid_hex now : string)
    (self1 self2 : AnpMcpBridge) :
  (forall d, PyDict.lookup "did" anp_request = Some (JStr d) ->
             did_oauth_map self1 !! d = did_oauth_map self2 !! d) ->
  fst (anp_to_mcp anp_request uuid_hex now self1)
  = fst (anp_to_mcp anp_request uuid_hex now self2).
Proof.
  intros Hsame. unfold anp_to_mcp, anp_to_mcp_body.
  destruct (_validate_anp_request anp_request); [|reflexivity]. simpl.
  assert (forall d, PyDict.get "did" JNull anp_request = JStr d ->
                    did_oauth_map self1 !! d = did_oauth_map self2 !! d) as Hget.
  { intros d Hd. apply Hsame. by apply get_str_lookup. }
  clear Hsame. destruct (PyDict.get "did" JNull anp_request)
    as [| b | n | r | d | l | f]; run_monad.
  - reflexivity.
  - by destruct b.
  - by destruct (n =? 0)%Z.
  - by destruct (_ || _).
  - destruct (String.eqb d ""); simpl; [reflexivity|].
    unfold map_subscript, map_get, res_bind. rewrite (Hget d eq_refl).
    destruct (did_oauth_map self2 !! d); simpl; [|reflexivity].
    destruct (_convert_intent_to_method _); simpl; [reflexivity|].
    destruct (_convert_anp_params_to_mcp _); reflexivity.
  - by destruct l.
  - by destruct f.
Qed.

(** ** The registry *)

(** Whatever was registered before, once a non-empty [did] is registered
    with a token, a well-typed request under that [did] is translated and
    its envelope carries that token: the last registration wins. *)
Theorem register_then_translate (self : AnpMcpBridge) (anp_request : pydict)
    (uuid_hex now d oauth_token intent : string) :
  d <> "" ->
  PyDict.lookup "did" anp_request = Some (JStr d) ->
  PyDict.lookup "intent" anp_request = Some (JStr intent) ->
  PyDict.lookup "parameters" anp_request = None
  \/ (exists parameters,
         PyDict.lookup "parameters" anp_request = Some (JObj parameters)) ->
  fst (register_did d oauth_token self) = inr true
  /\ exists method params,
      fst (anp_to_mcp anp_request uuid_hex now
             (snd (register_did d oauth_token self)))
      = inr (translated method params ("req-" +:+ PyStr.prefix 8 uuid_hex)
               oauth_token).
Proof.
  intros Hne Hdid Hintent Hparams. split; [reflexivity|].
  destruct (_convert_anp_params_to_mcp
              (PyDict.get "parameters" (JObj []) anp_request))
    as [e|params] eqn:Hp.
  { destruct Hparams as [Hnone|[parameters Hsome]].
    - by rewrite (convert_params_absent _ Hnone) in Hp.
    - by rewrite (convert_params_mapping _ _ Hsome) in Hp. }
  eexists _, params.
  erewrite anp_to_mcp_translated; [reflexivity|exact Hdid|exact Hne| | | |exact Hp].
  - simpl. apply lookup_insert_eq.
  - apply PyDictFacts.mem_true_lookup. eauto.
  - rewrite (PyDictFacts.get_lookup _ _ _ _ Hintent). apply convert_intent_str.
Qed.

Lemma register_then_translate_witness :
  exists method params,
    fst (anp_to_mcp weather_request weather_uuid weather_now
           (snd (register_did "did:anp:alice" "token-renewed" alice_bridge)))
    = inr (translated method params "req-3f2a9c1e" "token-renewed").
Proof.
  apply (register_then_translate alice_bridge weather_request weather_uuid
           weather_now "did:anp:alice" "token-renewed" "查询天气").
  - discriminate.
  - reflexivity.
  - reflexivity.
  - right. eexists. reflexivity.
Defined.

(** [register_did] returns [True], keeps every session, changes no answer
    of [mcp_to_anp], and changes the result of [anp_to_mcp] for no request
    under another [did]. *)
Theorem register_did_frame (self : AnpMcpBridge) (did oauth_token : string) :
  fst (register_did did oauth_token self) = inr true
  /\ session_map (snd (register_did did oauth_token self)) = session_map self
  /\ (forall mcp_response,
         fst (mcp_to_anp mcp_response (snd (register_did did oauth_token self)))
         = fst (mcp_to_anp mcp_response self))
  /\ (forall anp_request uuid_hex now,
         PyDict.lookup "did" anp_request <> Some (JStr did) ->
         fst (anp_to_mcp anp_request uuid_hex now
                (snd (register_did did oauth_token self)))
         = fst (anp_to_mcp anp_request uuid_hex now self)).
Proof.
  split; [reflexivity|]. split; [reflexivity|]. split.
  - intros mcp_response. by apply mcp_to_anp_reads_one_session.
  - intros anp_request uuid_hex now Hother.
    apply anp_to_mcp_reads_one_token. intros d Hd. simpl.
    apply lookup_insert_ne. intros ->. by apply Hother.
Qed.

(** ** What the translations leave alone *)

(** [mcp_to_anp] never changes the bridge, on any path: a response can be
    handed in again and gets the same answer. *)
Theorem mcp_to_anp_read_only (self : AnpMcpBridge) (mcp_response : pydict) :
  snd (mcp_to_anp mcp_response self) = self
  /\ mcp_to_anp mcp_response (snd (mcp_to_anp mcp_response self))
     = mcp_to_anp mcp_response self.
Proof.
  destruct (mcp_to_anp_outcome mcp_response self) as (r & Hrun & _).
  rewrite Hrun. simpl. by rewrite Hrun.
Qed.

(** [anp_to_mcp] never changes the registry, and changes the session store
    at most under the request id it hands out: every other session stays,
    and its result does not depend on the sessions stored. *)
Theorem anp_to_mcp_frame (self : AnpMcpBridge) (anp_request : pydict)
    (uuid_hex now : string) :
  did_oauth_map (snd (anp_to_mcp anp_request uuid_hex now self))
  = did_oauth_map self
  /\ (forall k,
         k <> "req-" +:+ PyStr.prefix 8 uuid_hex ->
         session_map (snd (anp_to_mcp anp_request uuid_hex now self)) !! k
         = session_map self !! k)
  /\ (forall self',
         did_oauth_map self' = did_oauth_map self ->
         fst (anp_to_mcp anp_request uuid_hex now self')
         = fst (anp_to_mcp anp_request uuid_hex now self)).
Proof.
  destruct (anp_to_mcp_outcome anp_request uuid_hex now self)
    as (r & self1 & Hrun & Hout).
  split; [|split].
  - rewrite Hrun. simpl. inversion Hout; subst; reflexivity.
  - intros k Hk. rewrite Hrun. simpl. inversion Hout; subst; try reflexivity.
    simpl. apply lookup_insert_ne. congruence.
  - intros self' Hreg. apply anp_to_mcp_reads_one_token.
    intros d _. by rewrite Hreg.
Qed.

(** ** The life of a session *)

(** After a successful [anp_to_mcp], [get_session_info] under the returned
    request id gives the request as it came, the time of the call and the
    [did]; [clear_session] under that id returns [True]; and from then on
    a response under that id is answered with [SESSION_NOT_FOUND]. *)
Theorem session_lifecycle (self self' : AnpMcpBridge) (anp_request : pydict)
    (uuid_hex now : string) (r : json) :
  anp_to_mcp anp_request uuid_hex now self = (inr r, self') ->
  field "success" r = Some (JBool true) ->
  exists request_id did,
    field "request_id" r = Some (JStr request_id)
    /\ PyDict.lookup "did" anp_request = Some did
    /\ get_session_info request_id self'
       = (inr (Some {| sess_anp_request := anp_request;
                       sess_timestamp := now;
                       sess_did := did |}), self')
    /\ fst (clear_session request_id self') = inr true
    /\ forall mcp_response,
        _validate_mcp_response mcp_response = true ->
        PyDict.lookup "id" mcp_response = Some (JStr request_id) ->
        fst (mcp_to_anp mcp_response (snd (clear_session request_id self')))
        = inr (failure "未找到对应的会话信息" "SESSION_NOT_FOUND").
Proof.
  intros Hrun Hok.
  destruct (anp_to_mcp_outcome anp_request uuid_hex now self)
    as (r0 & self0 & Hrun0 & Hout).
  rewrite Hrun in Hrun0. injection Hrun0 as <- <-.
  inversion Hout as [ | | | d oauth_token method params Hv Hdid Hne Hreg Hm Hp];
    subst; try discriminate.
  exists ("req-" +:+ PyStr.prefix 8 uuid_hex), (JStr d).
  split; [reflexivity|]. split; [exact Hdid|].
  assert (session_map
            (with_session ("req-" +:+ PyStr.prefix 8 uuid_hex)
               {| sess_anp_request := anp_request;
                  sess_timestamp := now;
                  sess_did := JStr d |} self)
          !! ("req-" +:+ PyStr.prefix 8 uuid_hex)
          = Some {| sess_anp_request := anp_request;
                    sess_timestamp := now;
                    sess_did := JStr d |}) as Hs.
  { simpl. apply lookup_insert_eq. }
  split; [|split].
  - unfold get_session_info, gets. by rewrite Hs.
  - unfold clear_session. run_monad. unfold with_session in Hs. simpl in Hs.
    by rewrite Hs.
  - intros mcp_response Hvalid Hid.
    unfold clear_session. run_monad. unfold with_session in Hs. simpl in Hs.
    rewrite Hs. simpl.
    erewrite mcp_to_anp_session_not_found; [reflexivity|exact Hvalid|exact Hid|].
    simpl. apply lookup_delete_eq.
Qed.

Lemma session_lifecycle_witness :
  exists request_id did,
    field "request_id"
      (translated "getWeather"
         [ ("cityName", JStr "北京"); ("queryDate", JStr "today") ]
         "req-3f2a9c1e" "token-alice")
    = Some (JStr request_id)
    /\ PyDict.lookup "did" weather_request = Some did
    /\ get_session_info request_id alice_waiting
       = (inr (Some {| sess_anp_request := weather_request;
                       sess_timestamp := weather_now;
                       sess_did := did |}), alice_waiting)
    /\ fst (clear_session request_id alice_waiting) = inr true
    /\ forall mcp_response,
        _validate_mcp_response mcp_response = true ->
        PyDict.lookup "id" mcp_response = Some (JStr request_id) ->
        fst (mcp_to_anp mcp_response
               (snd (clear_session request_id alice_waiting)))
        = inr (failure "未找到对应的会话信息" "SESSION_NOT_FOUND").
Proof.
  apply (session_lifecycle alice_bridge alice_waiting weather_request
           weather_uuid weather_now); reflexivity.
Defined.

Lemma request_id_inj (p q : string) : "req-" +:+ p = "req-" +:+ q -> p = q.
Proof.
  intros H.
  change (String "r" (String "e" (String "q" (String "-" p)))
          = String "r" (String "e" (String "q" (String "-" q)))) in H.
  by injection H.
Qed.

(** A successful [anp_to_mcp] returns [translated] at its request id. *)
Lemma translated_inv (self self' : AnpMcpBridge) (anp_request : pydict)
    (uuid_hex now : string) (r : json) :
  anp_to_mcp anp_request uuid_hex now self = (inr r, self') ->
  field "success" r = Some (JBool true) ->
  field "request_id" r = Some (JStr ("req-" +:+ PyStr.prefix 8 uuid_hex))
  /\ PyDict.mem "intent" anp_request = true.
Proof.
  intros Hrun Hok.
  destruct (anp_to_mcp_outcome anp_request uuid_hex now self)
    as (r0 & self0 & Hrun0 & Hout).
  rewrite Hrun in Hrun0. injection Hrun0 as <- <-.
  inversion Hout as [ | | | d oauth_token method params Hv]; subst;
    try discriminate.
  split; [reflexivity|]. by apply validate_anp_request_true in Hv as [_ ?].
Qed.

(** Request ids are not checked for freshness.  When two successful
    translations draw the same first eight characters, they return the
    same request id and the session of the second replaces that of the
    first, so that the answer to a response under that id speaks of the
    second request.  When they draw different ones, the session of the
    first is still there after the second. *)
Theorem request_id_collision (self0 self1 self2 : AnpMcpBridge)
    (request1 request2 : pydict) (uuid1 uuid2 now1 now2 : string)
    (r1 r2 : json) :
  anp_to_mcp request1 uuid1 now1 self0 = (inr r1, self1) ->
  field "success" r1 = Some (JBool true) ->
  anp_to_mcp request2 uuid2 now2 self1 = (inr r2, self2) ->
  field "success" r2 = Some (JBool true) ->
  (PyStr.prefix 8 uuid1 = PyStr.prefix 8 uuid2 ->
   field "request_id" r1 = field "request_id" r2
   /\ exists did2,
       PyDict.lookup "did" request2 = Some did2
       /\ session_map self2 !! ("req-" +:+ PyStr.prefix 8 uuid1)
          = Some {| sess_anp_request := request2;
                    sess_timestamp := now2;
                    sess_did := did2 |}
       /\ forall mcp_response,
           _validate_mcp_response mcp_response = true ->
           PyDict.lookup "id" mcp_response
           = Some (JStr ("req-" +:+ PyStr.prefix 8 uuid1)) ->
           PyDict.lookup "error" mcp_response = None ->
           field "context" (match fst (mcp_to_anp mcp_response self2) with
                            | inr answer => answer
                            | inl _ => JNull
                            end)
           = Some (JObj [ ("intent", PyDict.get "intent" JNull request2);
                          ("request_id",
                           JStr ("req-" +:+ PyStr.prefix 8 uuid1));
                          ("did", did2) ]))
  /\ (PyStr.prefix 8 uuid1 <> PyStr.prefix 8 uuid2 ->
      exists did1,
        PyDict.lookup "did" request1 = Some did1
        /\ session_map self2 !! ("req-" +:+ PyStr.prefix 8 uuid1)
           = Some {| sess_anp_request := request1;
                     sess_timestamp := now1;
                     sess_did := did1 |}).
Proof.
  intros Hrun1 Hok1 Hrun2 Hok2.
  destruct (translated_anp_to_mcp_stores _ _ _ _ _ _ Hrun1 Hok1)
    as (_ & did1 & Hdid1 & Hs1).
  destruct (translated_anp_to_mcp_stores _ _ _ _ _ _ Hrun2 Hok2)
    as (_ & did2 & Hdid2 & Hs2).
  destruct (translated_inv _ _ _ _ _ _ Hrun1 Hok1) as [Hid1 _].
  destruct (translated_inv _ _ _ _ _ _ Hrun2 Hok2) as [Hid2 _].
  split.
  - intros Hsame. rewrite Hid1, Hid2, Hsame. split; [reflexivity|].
    exists did2. split; [exact Hdid2|].
    assert (session_map self2 !! ("req-" +:+ PyStr.prefix 8 uuid2)
            = Some {| sess_anp_request := request2;
                      sess_timestamp := now2;
                      sess_did := did2 |}) as Hs.
    { rewrite Hs2. apply lookup_insert_eq. }
    split; [exact Hs|].
    intros mcp_response Hvalid Hid Herr.
    by rewrite (mcp_to_anp_answered _ _ _ _ Hvalid Hid Hs Herr).
  - intros Hdiff. exists did1. split; [exact Hdid1|].
    rewrite Hs2, lookup_insert_ne.
    + rewrite Hs1. apply lookup_insert_eq.
    + intros Heq. apply Hdiff. symmetry. by apply request_id_inj.
Qed.

Lemma request_id_collision_witness :
  session_map
    (snd (anp_to_mcp
            [ ("did", JStr "did:anp:alice"); ("intent", JStr "查询订单") ]
            "3f2a9c1e000000000000000000000000" "2025-03-01T08:31:00.000000"
            alice_waiting))
  !! "req-3f2a9c1e"
  = Some {| sess_anp_request :=
              [ ("did", JStr "did:anp:alice"); ("intent", JStr "查询订单") ];
            sess_timestamp := "2025-03-01T08:31:00.000000";
            sess_did := JStr "did:anp:alice" |}.
Proof.
  destruct (proj1 (request_id_collision alice_bridge alice_waiting
                     (snd (anp_to_mcp
                             [ ("did", JStr "did:anp:alice");
                               ("intent", JStr "查询订单") ]
                             "3f2a9c1e000000000000000000000000"
                             "2025-03-01T08:31:00.000000" alice_waiting))
                     weather_request
                     [ ("did", JStr "did:anp:alice"); ("intent", JStr "查询订单") ]
                     weather_uuid "3f2a9c1e000000000000000000000000"
                     weather_now "2025-03-01T08:31:00.000000"
                     (translated "getWeather"
                        [ ("cityName", JStr "北京"); ("queryDate", JStr "today") ]
                        "req-3f2a9c1e" "token-alice")
                     (translated "getOrderInfo" [] "req-3f2a9c1e" "token-alice")
                     eq_refl eq_refl eq_refl eq_refl) eq_refl)
    as (_ & did2 & Hdid2 & Hs & _).
  injection Hdid2 as <-. exact Hs.
Defined.

(** A response whose [id] is no string never meets a session: a hashable
    [id] is answered with [SESSION_NOT_FOUND] whatever the store holds, and
    a list or a mapping makes the lookup raise, which is answered with
    [CONVERSION_ERROR]. *)
Theorem non_string_id_finds_no_session (self : AnpMcpBridge)
    (mcp_response : pydict) (id : json) :
  _validate_mcp_response mcp_response = true ->
  PyDict.lookup "id" mcp_response = Some id ->
  (forall k, id <> JStr k) ->
  mcp_to_anp mcp_response self
  = (inr (if hashable id
          then failure "未找到对应的会话信息" "SESSION_NOT_FOUND"
          else failure ("转换失败: unhashable type: '" +:+ type_name id +:+ "'")
                 "CONVERSION_ERROR"),
     self).
Proof.
  intros Hvalid Hid Hnostr. unfold mcp_to_anp, mcp_to_anp_body.
  rewrite Hvalid, (PyDictFacts.get_lookup _ JNull _ _ Hid). run_monad.
  destruct id; try reflexivity. by destruct (Hnostr s).
Qed.

Lemma non_string_id_finds_no_session_witness :
  mcp_to_anp [ ("jsonrpc", JStr "2.0"); ("id", JInt 1); ("result", JObj []) ]
    alice_waiting
  = (inr (failure "未找到对应的会话信息" "SESSION_NOT_FOUND"), alice_waiting).
Proof.
  apply (non_string_id_finds_no_session alice_waiting
           [ ("jsonrpc", JStr "2.0"); ("id", JInt 1); ("result", JObj []) ]
           (JInt 1)).
  - reflexivity.
  - reflexivity.
  - discriminate.
Defined.

(** [clear_session] touches the one id it is given: the registry and the
    other sessions stay, responses under another id and all requests are
    answered as before, and clearing the same id again returns [False]. *)
Theorem clear_session_frame (self : AnpMcpBridge) (request_id : string) :
  did_oauth_map (snd (clear_session request_id self)) = did_oauth_map self
  /\ (forall k,
         k <> request_id ->
         session_map (snd (clear_session request_id self)) !! k
         = session_map self !! k)
  /\ (forall mcp_response,
         PyDict.lookup "id" mcp_response <> Some (JStr request_id) ->
         fst (mcp_to_anp mcp_response (snd (clear_session request_id self)))
         = fst (mcp_to_anp mcp_response self))
  /\ (forall anp_request uuid_hex now,
         fst (anp_to_mcp anp_request uuid_hex now
                (snd (clear_session request_id self)))
         = fst (anp_to_mcp anp_request uuid_hex now self))
  /\ fst (clear_session request_id (snd (clear_session request_id self)))
     = inr false.
Proof.
  assert (did_oauth_map (snd (clear_session request_id self))
          = did_oauth_map self) as Hreg.
  { unfold clear_session. run_monad.
    by destruct (session_map self !! request_id). }
  assert (session_map (snd (clear_session request_id self))
          = delete request_id (session_map self)) as Hs.
  { unfold clear_session. run_monad.
    destruct (session_map self !! request_id) eqn:E; simpl; [reflexivity|].
    by rewrite delete_id. }
  split; [exact Hreg|]. split; [|split; [|split]].
  - intros k Hk. rewrite Hs. by apply lookup_delete_ne.
  - intros mcp_response Hother. apply mcp_to_anp_reads_one_session.
    intros k Hk. rewrite Hs. apply lookup_delete_ne. intros ->. by apply Hother.
  - intros anp_request uuid_hex now. apply anp_to_mcp_reads_one_token.
    intros d _. by rewrite Hreg.
  - unfold clear_session at 1. run_monad. by rewrite Hs, lookup_delete_eq.
Qed.

(** ** The HTTP service *)





(** Under the text that the framework gives an [HTTPException], a
    response for an unknown session is answered 500 with the detail
    ["404: ..."], and a request without [intent] 500 with ["400: ..."]. *)
Example unknown_session_is_a_500 :
  AnpMcpService.convert_mcp_to_anp status_colon_detail
    (BodyJson (JObj [ ("jsonrpc", JStr "2.0"); ("id", JStr "req-00000000");
                      ("result", JObj []) ]))
    alice_waiting
  = (HttpFailure 500 (JStr "404: 未找到对应的会话信息"), alice_waiting).
Proof. reflexivity. Qed.

Example missing_intent_is_a_500 :
  AnpMcpService.convert_anp_to_mcp status_colon_detail
    (BodyJson (JObj [ ("did", JStr "did:anp:alice") ]))
    weather_uuid weather_now alice_bridge
  = (HttpFailure 500 (JStr "400: 无效的ANP请求格式"), alice_bridge).
Proof. reflexivity. Qed.

Example list_body_is_a_500 :
  AnpMcpService.convert_anp_to_mcp status_colon_detail
    (BodyJson (JArr [ JStr "did"; JStr "intent" ]))
    weather_uuid weather_now alice_bridge
  = (HttpFailure 500
       (JStr "400: 转换失败: 'list' object has no attribute 'get'"),
     alice_bridge).
Proof. reflexivity. Qed.




(** ** Every way [anp_to_mcp] can end *)

Lemma convert_intent_non_string (intent : json) :
  (forall i, intent <> JStr i) ->
  _convert_intent_to_method intent = inl (AttributeError (type_name intent) "split").
Proof. intros H. destruct intent; try reflexivity. by destruct (H s). Qed.

Lemma convert_params_non_mapping (params : json) :
  (forall p, params <> JObj p) ->
  _convert_anp_params_to_mcp params = inl (AttributeError (type_name params) "items").
Proof. intros H. destruct params; try reflexivity. by destruct (H fields). Qed.

(** The four ways [anp_to_mcp] can end, each with the inputs that lead to
    it and no others.  [INVALID_ANP_FORMAT]: [did] or [intent] is absent.
    [INVALID_DID]: both are there and [did] is false or no key of the
    registry.  [CONVERSION_ERROR]: both are there, [did] is true, and it
    cannot be hashed, or it is registered while [intent] is no string or
    [parameters] no mapping.  Success: both are there, [did] is a
    registered non-empty string, [intent] is a string and [parameters],
    absent or not, a mapping. *)
Theorem anp_to_mcp_decision_table (self self' : AnpMcpBridge)
    (anp_request : pydict) (uuid_hex now : string) (r : json) :
  anp_to_mcp anp_request uuid_hex now self = (inr r, self') ->
  let did := PyDict.get "did" JNull anp_request in
  let intent := PyDict.get "intent" JNull anp_request in
  let parameters := PyDict.get "parameters" (JObj []) anp_request in
  (field "error_code" r = Some (JStr "INVALID_ANP_FORMAT")
   <-> _validate_anp_request anp_request = false)
  /\ (field "error_code" r = Some (JStr "INVALID_DID")
      <-> _validate_anp_request anp_request = true
          /\ (truthy did = false
              \/ map_contains (did_oauth_map self) did = inr false))
  /\ (field "error_code" r = Some (JStr "CONVERSION_ERROR")
      <-> _validate_anp_request anp_request = true
          /\ truthy did = true
          /\ (hashable did = false
              \/ (map_contains (did_oauth_map self) did = inr true
                  /\ ((forall i, intent <> JStr i)
                      \/ (forall p, parameters <> JObj p)))))
  /\ (field "success" r = Some (JBool true)
      <-> _validate_anp_request anp_request = true
          /\ truthy did = true
          /\ map_contains (did_oauth_map self) did = inr true
          /\ (exists i, intent = JStr i)
          /\ (exists p, parameters = JObj p)).
Proof.
  intros Hrun did intent parameters.
  unfold anp_to_mcp, anp_to_mcp_body in Hrun.
  fold did intent parameters in Hrun. clearbody did intent parameters.
  destruct (_validate_anp_request anp_request) eqn:Hv; simpl in Hrun.
  2:{ injection Hrun as <- <-. simpl. intuition congruence. }
  revert Hrun. run_monad.
  destruct (truthy did) eqn:Ht; simpl.
  2:{ intros [= <- <-]. simpl. intuition congruence. }
  destruct (map_contains (did_oauth_map self) did) as [e|[]] eqn:Hc; simpl.
  - intros [= <- <-].
    assert (hashable did = false) as Hh.
    { destruct did; try discriminate; reflexivity. }
    simpl. rewrite Hh. intuition congruence.
  - assert (hashable did = true) as Hh.
    { destruct did; try discriminate; reflexivity. }
    assert (exists d tok, did = JStr d /\ did_oauth_map self !! d = Some tok)
      as (d & tok & Hd & Hreg).
    { destruct did; try discriminate. rewrite map_contains_str in Hc.
      destruct (did_oauth_map self !! s) eqn:E; [eauto|discriminate]. }
    rewrite Hd. unfold map_subscript, map_get, res_bind. rewrite Hreg. simpl.
    rewrite <- Hd.
    destruct (_convert_intent_to_method intent) as [e|method] eqn:Hm; simpl.
    { intros [= <- <-].
      assert (forall i, intent <> JStr i) as Hns.
      { intros i Hi. rewrite Hi, convert_intent_str in Hm. discriminate. }
      simpl. decide_table. }
    assert (exists i, intent = JStr i) as Hi.
    { destruct intent; try discriminate. eauto. }
    destruct (_convert_anp_params_to_mcp parameters) as [e|params] eqn:Hp; simpl.
    { intros [= <- <-].
      assert (forall p, parameters <> JObj p) as Hnp.
      { intros p Hp'. rewrite Hp' in Hp. discriminate. }
      simpl. decide_table. }
    assert (exists p, parameters = JObj p) as Hpm.
    { destruct parameters; try discriminate. eauto. }
    intros [= <- <-]. simpl. decide_table.
  - assert (hashable did = true) as Hh.
    { destruct did; try discriminate; reflexivity. }
    intros [= <- <-]. simpl. decide_table.
Qed.


Lemma anp_to_mcp_decision_table_witness :
  field "error_code" (failure "无效的DID" "INVALID_DID")
  = Some (JStr "INVALID_DID")
  <-> _validate_anp_request
        [ ("did", JStr "did:anp:bob"); ("intent", JStr "查询天气") ] = true
      /\ (truthy (JStr "did:anp:bob") = false
          \/ map_contains (did_oauth_map alice_bridge) (JStr "did:anp:bob")
             = inr false).
Proof.
  exact (proj1 (proj2 (anp_to_mcp_decision_table alice_bridge alice_bridge
                         [ ("did", JStr "did:anp:bob");
                           ("intent", JStr "查询天气") ]
                         weather_uuid weather_now
                         (failure "无效的DID" "INVALID_DID") eq_refl))).
Defined.

(** ** When [mcp_to_anp] succeeds *)

(** [mcp_to_anp] succeeds exactly on a response that passes the
    validation, whose [id] is a string with a stored session, and that has
    no [error] key at all; its data is then the [result] as it came.  A
    response that carries both [result] and [error] never succeeds. *)
Theorem mcp_to_anp_success_iff (self self' : AnpMcpBridge)
    (mcp_response : pydict) (r : json) :
  mcp_to_anp mcp_response self = (inr r, self') ->
  (field "success" r = Some (JBool true)
   <-> _validate_mcp_response mcp_response = true
       /\ PyDict.lookup "error" mcp_response = None
       /\ exists request_id info,
           PyDict.lookup "id" mcp_response = Some (JStr request_id)
           /\ session_map self !! request_id = Some info)
  /\ (field "success" r = Some (JBool true) ->
      field "data" r = PyDict.lookup "result" mcp_response).
Proof.
  intros Hrun.
  destruct (mcp_to_anp_outcome mcp_response self) as (r0 & Hrun0 & Hout).
  rewrite Hrun in Hrun0. injection Hrun0 as <- <-. split; [split|].
  - intros Hok.
    inversion Hout as [ | | | | request_id info Hv Hid Hs He Hr ];
      subst r; try discriminate.
    split; [exact Hv|]. split; [exact He|]. by exists request_id, info.
  - intros (Hv & He & request_id & info & Hid & Hs).
    rewrite (mcp_to_anp_answered _ _ _ _ Hv Hid Hs He) in Hrun.
    by injection Hrun as <-.
  - intros Hok.
    inversion Hout as [ | | | | request_id info Hv Hid Hs He Hr ];
      subst r; try discriminate.
    simpl. unfold _convert_mcp_result_to_anp, PyDict.get.
    apply validate_mcp_response_true in Hv as (_ & _ & [Hres|Herr]).
    + apply PyDictFacts.mem_true_lookup in Hres as [v Hres]. by rewrite Hres.
    + apply PyDictFacts.mem_true_lookup in Herr as [v Herr]. congruence.
Qed.

Lemma mcp_to_anp_success_iff_witness :
  field "success"
    (JObj [ ("success", JBool false);
            ("error", JStr "upstream failed");
            ("error_code", JStr "UNKNOWN_ERROR");
            ("context",
             JObj [ ("request_id", JStr "req-3f2a9c1e");
                    ("original_intent", JStr "查询天气") ]) ])
  = Some (JBool true)
  <-> _validate_mcp_response
        [ ("jsonrpc", JStr "2.0"); ("id", JStr "req-3f2a9c1e");
          ("result", JObj [ ("temperature", JInt 21) ]);
          ("error", JObj [ ("message", JStr "upstream failed") ]) ] = true
      /\ PyDict.lookup "error"
           [ ("jsonrpc", JStr "2.0"); ("id", JStr "req-3f2a9c1e");
             ("result", JObj [ ("temperature", JInt 21) ]);
             ("error", JObj [ ("message", JStr "upstream failed") ]) ] = None
      /\ exists request_id info,
          PyDict.lookup "id"
            [ ("jsonrpc", JStr "2.0"); ("id", JStr "req-3f2a9c1e");
              ("result", JObj [ ("temperature", JInt 21) ]);
              ("error", JObj [ ("message", JStr "upstream failed") ]) ]
          = Some (JStr request_id)
          /\ session_map alice_waiting !! request_id = Some info.
Proof.
  exact (proj1 (mcp_to_anp_success_iff alice_waiting alice_waiting
                  [ ("jsonrpc", JStr "2.0"); ("id", JStr "req-3f2a9c1e");
                    ("result", JObj [ ("temperature", JInt 21) ]);
                    ("error", JObj [ ("message", JStr "upstream failed") ]) ]
                  _ eq_refl)).
Defined.
